(** * Node.js bootstrap script (src/cloud/main.py): model and properties

    The script checks whether Node.js answers a version query, reads
    /etc/os-release, picks an installation routine for the distribution
    family, falls back to a list of package managers, verifies the result
    and finally hands over to [setup("http")].

    The embedding is shallow.  Python text is [string] (the model covers
    ASCII text: [lower] and [strip] act on the ASCII range).  The
    [distro_info] dictionary is a [gmap string string].  Effects (child
    processes, the metadata file, printing, [sys.exit], exceptions) are
    threaded through a state-and-exception monad over an abstract world. *)

From Stdlib Require Import ZArith String Ascii List Bool Lia.
From stdpp Require Import gmap strings list fin_maps.
Import ListNotations.
Local Open Scope string_scope.
Local Open Scope list_scope.

(** ** Python text operations used by the script *)

Module PyStr.

(** The character [chr(34)], the double quote stripped from each value. *)
Definition dquote : ascii := ascii_of_nat 34.
(** [chr(10)], the separator of [content.split('\n')]. *)
Definition newline : ascii := ascii_of_nat 10.
(** [chr(61)], the sign [=]. *)
Definition equals : ascii := ascii_of_nat 61.

(** [c.lower()] for one ASCII character: 'A'..'Z' move by 32. *)
Definition lower_char (c : ascii) : ascii :=
  let n := nat_of_ascii c in
  if (65 <=? n)%nat && (n <=? 90)%nat then ascii_of_nat (n + 32) else c.

(** [s.lower()] *)
Fixpoint lower (s : string) : string :=
  match s with
  | EmptyString => EmptyString
  | String c s' => String (lower_char c) (lower s')
  end.

(** [c in s] for a single character [c]. *)
Fixpoint contains_char (c : ascii) (s : string) : bool :=
  match s with
  | EmptyString => false
  | String d s' => Ascii.eqb c d || contains_char c s'
  end.

(** [needle in hay]: Python's substring test on [str]. *)
Fixpoint contains (needle hay : string) : bool :=
  String.prefix needle hay
  || match hay with
     | EmptyString => false
     | String _ hay' => contains needle hay'
     end.

(** [x in xs] for a list of strings. *)
Definition in_list (x : string) (xs : list string) : bool :=
  existsb (String.eqb x) xs.

(** [s.split(sep)] for a one-character separator: never empty,
    [''.split(sep) = ['']]. *)
Fixpoint split (sep : ascii) (s : string) : list string :=
  match s with
  | EmptyString => [EmptyString]
  | String c s' =>
      if Ascii.eqb c sep then EmptyString :: split sep s'
      else match split sep s' with
           | [] => [String c EmptyString]
           | w :: ws => String c w :: ws
           end
  end.

(** [s.split(sep, 1)] as the pair the script unpacks into
    [key, value]; the script only calls it when [sep in s]. *)
Fixpoint split1 (sep : ascii) (s : string) : string * string :=
  match s with
  | EmptyString => (EmptyString, EmptyString)
  | String c s' =>
      if Ascii.eqb c sep then (EmptyString, s')
      else let (k, v) := split1 sep s' in (String c k, v)
  end.

(** [s.lstrip(chars)] with the characters given by a predicate. *)
Fixpoint lstrip (p : ascii -> bool) (s : string) : string :=
  match s with
  | EmptyString => EmptyString
  | String c s' => if p c then lstrip p s' else s
  end.

(** [s.rstrip(chars)] *)
Fixpoint rstrip (p : ascii -> bool) (s : string) : string :=
  match s with
  | EmptyString => EmptyString
  | String c s' =>
      match rstrip p s' with
      | EmptyString => if p c then EmptyString else String c EmptyString
      | r => String c r
      end
  end.

(** [s.strip(chars)] *)
Definition strip_with (p : ascii -> bool) (s : string) : string :=
  rstrip p (lstrip p s).

(** [value.strip(q)] where [q] is the one-character string [dquote] *)
Definition strip_quotes (s : string) : string :=
  strip_with (Ascii.eqb dquote) s.

(** Python's [str.isspace] on the ASCII range: TAB..CR, FS..US, SPACE. *)
Definition is_space (c : ascii) : bool :=
  let n := nat_of_ascii c in
  ((9 <=? n)%nat && (n <=? 13)%nat) || ((28 <=? n)%nat && (n <=? 32)%nat).

(** [s.strip()] *)
Definition strip (s : string) : string := strip_with is_space s.

(** [s.split()]: maximal runs of non-space characters. *)
Fixpoint split_ws_aux (cur : string) (s : string) : list string :=
  match s with
  | EmptyString =>
      match cur with EmptyString => [] | _ => [cur] end
  | String c s' =>
      if is_space c then
        match cur with
        | EmptyString => split_ws_aux EmptyString s'
        | _ => cur :: split_ws_aux EmptyString s'
        end
      else split_ws_aux (cur ++ String c EmptyString) s'
  end.

Definition split_ws (s : string) : list string :=
  split_ws_aux EmptyString s.

End PyStr.

(** ** The os-release dictionary (lines 34-41 of the script) *)

(** One iteration of the loop [for line in content.split('\n')]. *)
Definition distro_info_step (distro_info : gmap string string) (line : string)
  : gmap string string :=
  if PyStr.contains_char PyStr.equals line then
    let (key, value) := PyStr.split1 PyStr.equals line in
    <[key := PyStr.strip_quotes value]> distro_info
  else distro_info.

(** The dictionary after the loop; a later line overrides an earlier one. *)
Definition parse_os_release (content : string) : gmap string string :=
  foldl distro_info_step ∅ (PyStr.split PyStr.newline content).

(** [d.get(key, dflt)] *)
Definition dict_get (d : gmap string string) (key dflt : string) : string :=
  default dflt (d !! key).

Definition nl : string := String PyStr.newline EmptyString.

(** ** Effects: child processes, exceptions, output *)

(** What happens to a spawned command: it runs and exits with a return
    code and a standard output; or the executable cannot be located; or
    [subprocess.run] fails in another way: the program is found but
    cannot be started ([PermissionError] or another [OSError]), or, under
    [text=True], its output cannot be decoded ([UnicodeDecodeError]). *)
Inductive Spawn : Type :=
| Exited (returncode : Z) (stdout : string)
| NotFound
| SpawnError.

(** The exceptions that travel through the script.  [OSError] stands for
    whatever [open]/[read] raise on the metadata file, [OtherError] for
    any exception of [subprocess.run] other than [CalledProcessError] and
    [FileNotFoundError]; both are instances of [Exception]. *)
Inductive Exn : Type :=
| CalledProcessError
| FileNotFoundError
| OSError
| OtherError
| SystemExit (code : Z).

(** [except Exception] catches everything but [SystemExit]. *)
Definition is_Exception (e : Exn) : bool :=
  match e with SystemExit _ => false | _ => true end.

(** [except subprocess.CalledProcessError] *)
Definition is_CalledProcessError (e : Exn) : bool :=
  match e with CalledProcessError => true | _ => false end.

(** [except (subprocess.CalledProcessError, FileNotFoundError)] *)
Definition is_CalledProcessError_or_FileNotFoundError (e : Exn) : bool :=
  match e with CalledProcessError | FileNotFoundError => true | _ => false end.

Inductive Result (A : Type) : Type :=
| Ok (a : A)
| Raise (e : Exn).
Arguments Ok {A} a.
Arguments Raise {A} e.

(** The lines the script prints, one constructor per [print] call
    (source line in brackets). *)
Inductive Msg : Type :=
| MsgNodeInstalled (version : string)   (* [21] installed, with version *)
| MsgNodeMissing                        (* [24] not installed *)
| MsgDetectedSystem (name : string)     (* [43] detected system NAME *)
| MsgDistroId (distro_id : string)      (* [44] distribution ID *)
| MsgDetectFailed                       (* [48] cannot detect distribution *)
| MsgDebianStart                        (* [54] installing on Debian/Ubuntu *)
| MsgRedhatStart                        (* [88] installing on RHEL/CentOS/Fedora *)
| MsgInstallOk                          (* [78] [107] install succeeded *)
| MsgInstallError                       (* [82] [111] install failed *)
| MsgFallbackStart                      (* [117] using the fallback plan *)
| MsgFallbackOk                         (* [132] installed by the fallback plan *)
| MsgAllFailed                          (* [137] every method failed *)
| MsgFallbackError                      (* [141] fallback plan failed *)
| MsgUnknownDistro                      (* [150] distribution unknown, trying fallback *)
| MsgUnsupportedDistro (distro_id : string) (* [164] unsupported, trying fallback *)
| MsgLinuxOnly                          (* [173] the script is for Linux only *)
| MsgSudoAdvice                         (* [178] better run with sudo *)
| MsgChecking                           (* [180] checking the environment *)
| MsgReady                              (* [184] environment ready *)
| MsgStartInstall                       (* [188] starting the install *)
| MsgConfigured                         (* [192] environment configured *)
| MsgVerifyFailed                       (* [194] verification after install failed *)
| MsgInstallFailed.                     (* [197] install failed *)

(** The observable history of a run: printed lines, spawned commands
    with what became of them, the read of the metadata file, and the call
    of the downstream [setup]. *)
Inductive Event : Type :=
| EPrint (m : Msg)
| ERun (argv : list string) (r : Spawn)
| EOpen (path : string)
| ESetup (mode : string).

(** The host the script runs on.  [setup] is the collaborator imported
    from [turf_mcp.main]; its body is outside the script, so it is a
    parameter of the model. *)
Record Env : Type := {
  World : Type;
  (** spawn [argv], wait for it *)
  spawn : list string -> World -> Spawn * World;
  (** [open(path).read()]; [None] when either raises *)
  open_read : string -> World -> option string;
  (** [platform.system()] *)
  platform_system : World -> string;
  (** [os.geteuid()] *)
  os_geteuid : World -> Z;
  (** [setup(mode)] *)
  setup : string -> World -> Result unit * World
}.

Record State (E : Env) : Type := {
  world : World E;
  output : list Event
}.
Arguments world {E} _.
Arguments output {E} _.

(** A computation: from a state to a result (value or exception) and a
    state. *)
Definition M (E : Env) (A : Type) : Type := State E -> Result A * State E.

Section Monad.
Context {E : Env}.

Definition ret {A} (a : A) : M E A := fun st => (Ok a, st).

Definition raise {A} (e : Exn) : M E A := fun st => (Raise e, st).

Definition bind {A B} (m : M E A) (k : A -> M E B) : M E B :=
  fun st =>
    match m st with
    | (Ok a, st') => k a st'
    | (Raise e, st') => (Raise e, st')
    end.

(** [try: body  except <catches>: handler] *)
Definition try_except {A} (body : M E A) (catches : Exn -> bool)
           (handler : Exn -> M E A) : M E A :=
  fun st =>
    match body st with
    | (Ok a, st') => (Ok a, st')
    | (Raise e, st') =>
        if catches e then handler e st' else (Raise e, st')
    end.

Definition emit (ev : Event) (st : State E) : State E :=
  {| world := world st; output := output st ++ [ev] |}.

Definition print (m : Msg) : M E unit :=
  fun st => (Ok tt, emit (EPrint m) st).

(** [sys.exit(code)] *)
Definition sys_exit {A} (code : Z) : M E A := raise (SystemExit code).

(** [subprocess.run(argv, check=True, ...)]: the standard output of the
    child on return code 0, [CalledProcessError] on any other return
    code, [FileNotFoundError] when the executable is missing, and
    another exception when the command cannot be run otherwise. *)
Definition subprocess_run (argv : list string) : M E string :=
  fun st =>
    let (r, w) := spawn E argv (world st) in
    let st' := {| world := w; output := output st ++ [ERun argv r] |} in
    match r with
    | Exited rc out =>
        if (rc =? 0)%Z then (Ok out, st') else (Raise CalledProcessError, st')
    | NotFound => (Raise FileNotFoundError, st')
    | SpawnError => (Raise OtherError, st')
    end.

(** [with open(path, 'r') as f: content = f.read()] *)
Definition read_file (path : string) : M E string :=
  fun st =>
    let st' := emit (EOpen path) st in
    match open_read E path (world st) with
    | Some content => (Ok content, st')
    | None => (Raise OSError, st')
    end.

Definition get_platform_system : M E string :=
  fun st => (Ok (platform_system E (world st)), st).

Definition get_euid : M E Z :=
  fun st => (Ok (os_geteuid E (world st)), st).

Definition call_setup (mode : string) : M E unit :=
  fun st =>
    let (r, w) := setup E mode (world st) in
    (r, {| world := w; output := output st ++ [ESetup mode] |}).

End Monad.

(** The script's sequencing is written with stdpp's monad notations:
    [x ← m; k] and [m;; k]. *)
#[global] Instance M_ret {E : Env} : MRet (M E) := @ret E.
#[global] Instance M_bind {E : Env} : MBind (M E) :=
  fun A B k m => bind m k.

(** The exit status of the process when [main()] ends with [r]: 0 on a
    normal return, the code of [sys.exit], 1 for a traceback. *)
Definition exit_code (r : Result unit) : Z :=
  match r with
  | Ok _ => 0
  | Raise (SystemExit code) => code
  | Raise _ => 1
  end.

(** ** The script *)

Section Script.
Context {E : Env}.

(** [check_node_installed] (lines 16-25) *)
Definition check_node_installed : M E bool :=
  try_except
    (stdout ← subprocess_run ["node"; "--version"];
     print (MsgNodeInstalled (PyStr.strip stdout));;
     mret true)
    is_CalledProcessError_or_FileNotFoundError
    (fun _ => print MsgNodeMissing;; mret false).

(** [detect_linux_distro] (lines 28-49).  The result is the pair
    [(distro_id, distro_id_like)], or [None] for the pair
    [(None, None)] of the [except] branch. *)
Definition detect_linux_distro : M E (option (string * string)) :=
  try_except
    (content ← read_file "/etc/os-release";
     let distro_info := parse_os_release content in
     let distro_id := PyStr.lower (dict_get distro_info "ID" EmptyString) in
     let distro_id_like :=
       PyStr.lower (dict_get distro_info "ID_LIKE" EmptyString) in
     print (MsgDetectedSystem (dict_get distro_info "NAME" "Unknown"));;
     print (MsgDistroId distro_id);;
     mret (Some (distro_id, distro_id_like)))
    is_Exception
    (fun _ => print MsgDetectFailed;; mret None).

(** [install_nodejs_debian_based] (lines 52-83) *)
Definition install_nodejs_debian_based : M E bool :=
  print MsgDebianStart;;
  try_except
    (subprocess_run ["sudo"; "apt"; "update"];;
     subprocess_run ["sudo"; "apt"; "install"; "-y"; "curl"; "gnupg"];;
     let node_setup_script := "https://deb.nodesource.com/setup_18.x" in
     subprocess_run ["curl"; "-fsSL"; node_setup_script];;
     let curl_cmd := ["curl"; "-fsSL"; node_setup_script] in
     setup_script ← subprocess_run curl_cmd;
     subprocess_run ["sudo"; "-E"; "bash"; "-c"; setup_script];;
     subprocess_run ["sudo"; "apt"; "install"; "-y"; "nodejs"];;
     print MsgInstallOk;;
     mret true)
    is_CalledProcessError
    (fun _ => print MsgInstallError;; mret false).

(** [install_nodejs_redhat_based] (lines 86-112) *)
Definition install_nodejs_redhat_based : M E bool :=
  print MsgRedhatStart;;
  try_except
    (subprocess_run ["sudo"; "yum"; "install"; "-y"; "curl"];;
     let node_setup_script := "https://rpm.nodesource.com/setup_18.x" in
     let curl_cmd := ["curl"; "-fsSL"; node_setup_script] in
     setup_script ← subprocess_run curl_cmd;
     subprocess_run ["sudo"; "-E"; "bash"; "-c"; setup_script];;
     subprocess_run ["sudo"; "yum"; "install"; "-y"; "nodejs"];;
     print MsgInstallOk;;
     mret true)
    is_CalledProcessError
    (fun _ => print MsgInstallError;; mret false).

(** The list [package_managers] (lines 121-127) *)
Definition package_managers : list (list string) :=
  [ ["apt"; "install"; "-y"; "nodejs"; "npm"];
    ["yum"; "install"; "-y"; "nodejs"; "npm"];
    ["dnf"; "install"; "-y"; "nodejs"; "npm"];
    ["zypper"; "install"; "-y"; "nodejs"; "npm"];
    ["pacman"; "-S"; "--noconfirm"; "nodejs"; "npm"] ].

(** The loop [for pkg_cmd in package_managers] with the two lines that
    follow it (lines 129-138).  The inner [try] either returns from the
    function ([Some]) or continues with the next candidate ([None]). *)
Fixpoint fallback_loop (cmds : list (list string)) : M E bool :=
  match cmds with
  | [] => print MsgAllFailed;; mret false
  | pkg_cmd :: rest =>
      returned ←
        try_except
          (subprocess_run ("sudo" :: pkg_cmd);;
           print MsgFallbackOk;;
           mret (Some true))
          is_CalledProcessError_or_FileNotFoundError
          (fun _ => mret None);
      match returned with
      | Some b => mret b
      | None => fallback_loop rest
      end
  end.

(** [install_nodejs_fallback] (lines 115-142) *)
Definition install_nodejs_fallback : M E bool :=
  print MsgFallbackStart;;
  try_except
    (fallback_loop package_managers)
    is_Exception
    (fun _ => print MsgFallbackError;; mret false).

(** The condition of the [if] on line 154. *)
Definition is_debian_family (distro_id distro_id_like : string) : bool :=
  PyStr.in_list distro_id ["debian"; "ubuntu"]
  || existsb (fun like => PyStr.contains like distro_id_like)
             ["debian"; "ubuntu"].

(** The condition of the [elif] on line 159. *)
Definition is_redhat_family (distro_id distro_id_like : string) : bool :=
  PyStr.in_list distro_id ["rhel"; "centos"; "fedora"]
  || existsb (fun like => PyStr.contains like distro_id_like)
             ["rhel"; "fedora"].

(** [not distro_id]: true for [None] and for the empty text. *)
Definition not_distro_id (info : option (string * string)) : bool :=
  match info with
  | None => true
  | Some (distro_id, _) => String.eqb distro_id EmptyString
  end.

(** Lines 149-165 of [install_nodejs], after the distribution has been
    detected. *)
Definition install_nodejs_for (info : option (string * string)) : M E bool :=
  match info with
  | None => print MsgUnknownDistro;; install_nodejs_fallback
  | Some (distro_id, distro_id_like) =>
      if not_distro_id info then
        print MsgUnknownDistro;; install_nodejs_fallback
      else
        let otherwise :=
          print (MsgUnsupportedDistro distro_id);; install_nodejs_fallback in
        if is_debian_family distro_id distro_id_like then
          ok ← install_nodejs_debian_based;
          if ok : bool then mret true else otherwise
        else if is_redhat_family distro_id distro_id_like then
          ok ← install_nodejs_redhat_based;
          if ok : bool then mret true else otherwise
        else otherwise
  end.

(** [install_nodejs] (lines 145-165) *)
Definition install_nodejs : M E bool :=
  info ← detect_linux_distro;
  install_nodejs_for info.

(** Lines 180-200 of [main]: from the first presence check on. *)
Definition main_pipeline : M E unit :=
  print MsgChecking;;
  installed ← check_node_installed;
  (if installed : bool then print MsgReady
   else
     print MsgStartInstall;;
     ok ← install_nodejs;
     if ok : bool then
       verified ← check_node_installed;
       if verified : bool then print MsgConfigured
       else print MsgVerifyFailed;; sys_exit 1
     else print MsgInstallFailed;; sys_exit 1);;
  call_setup "http".

(** [main] (lines 168-200) *)
Definition main : M E unit :=
  system ← get_platform_system;
  (if negb (String.eqb system "Linux")
   then print MsgLinuxOnly;; sys_exit 1
   else mret tt);;
  euid ← get_euid;
  (if negb (euid =? 0)%Z then print MsgSudoAdvice else mret tt);;
  main_pipeline.

End Script.

(** The state a run starts from. *)
Definition initial {E : Env} (w : World E) : State E :=
  {| world := w; output := [] |}.

(** Running the script as a program: the exit status and the history. *)
Definition run_script (E : Env) (w : World E) : Z * list Event :=
  let (r, st) := main (initial w) in (exit_code r, output st).

(** ** Observations on a history *)

(** The events a computation added to the history of [st]. *)
Definition events_since {E : Env} (st st' : State E) : list Event :=
  drop (length (output st)) (output st').

(** The three installation routines; each announces itself with its own
    first [print]. *)
Inductive StrategyKind : Type := Debian | RedHat | Fallback.

Definition strategy_of_event (ev : Event) : option StrategyKind :=
  match ev with
  | EPrint MsgDebianStart => Some Debian
  | EPrint MsgRedhatStart => Some RedHat
  | EPrint MsgFallbackStart => Some Fallback
  | _ => None
  end.

(** The routines entered during a run, in order. *)
Fixpoint strategies_started (evs : list Event) : list StrategyKind :=
  match evs with
  | [] => []
  | ev :: evs' =>
      match strategy_of_event ev with
      | Some k => k :: strategies_started evs'
      | None => strategies_started evs'
      end
  end.

Definition is_setup_event (ev : Event) : bool :=
  match ev with ESetup _ => true | _ => false end.

(** A command that did not exit with return code 0: another return code,
    a missing executable, or a command that could not be run. *)
Definition failed (r : Spawn) : bool :=
  match r with
  | Exited rc _ => negb (rc =? 0)%Z
  | NotFound => true
  | SpawnError => true
  end.

(** The state of [main] when it reaches line 180: the privilege warning
    has been printed when the effective user is not root. *)
Definition after_gate {E : Env} (st : State E) : State E :=
  if (os_geteuid E (world st) =? 0)%Z then st
  else emit (EPrint MsgSudoAdvice) st.

(** ** Predicates on computations *)

(** [emits Q m]: whatever the state, [m] appends events to the history,
    and all of them satisfy [Q]. *)
Definition emits {E : Env} {A} (Q : Event -> Prop) (m : M E A) : Prop :=
  forall st, exists evs,
    output (snd (m st)) = output st ++ evs /\ Forall Q evs.

(** An event that neither calls [setup] nor announces a routine. *)
Definition quiet (ev : Event) : Prop :=
  is_setup_event ev = false /\ strategy_of_event ev = None.

Definition any_event (ev : Event) : Prop := True.

Definition no_setup (ev : Event) : Prop := is_setup_event ev = false.

(** [first_strategy k m]: the first routine that [m] announces is [k]. *)
Definition first_strategy {E : Env} {A} (k : StrategyKind) (m : M E A) : Prop :=
  forall st, exists evs,
    output (snd (m st)) = output st ++ evs
    /\ head (strategies_started evs) = Some k.

(** The routine [install_nodejs] enters first, as the code decides it. *)
Definition selected (info : option (string * string)) : StrategyKind :=
  match info with
  | None => Fallback
  | Some (distro_id, distro_id_like) =>
      if String.eqb distro_id EmptyString then Fallback
      else if is_debian_family distro_id distro_id_like then Debian
      else if is_redhat_family distro_id distro_id_like then RedHat
      else Fallback
  end.

(** [needle] occurs in [hay] as a contiguous piece. *)
Definition Substring (needle hay : string) : Prop :=
  exists pre post, hay = String.append pre (String.append needle post).

(** The history of trying the candidates of [cmds], one after the other
    and each behind [sudo], with the outcomes [outcomes]; the shorter of
    the two lists decides how many were tried. *)
Definition attempts (cmds : list (list string)) (outcomes : list Spawn)
  : list Event :=
  zip_with ERun (map (cons "sudo") cmds) outcomes.

(** Lines 180-198: everything [main] does between the gate and the call
    of [setup]. *)
Definition presence_and_install {E : Env} : M E unit :=
  print MsgChecking;;
  installed ← check_node_installed;
  if installed : bool then print MsgReady
  else
    print MsgStartInstall;;
    ok ← install_nodejs;
    if ok : bool then
      verified ← check_node_installed;
      if verified : bool then print MsgConfigured
      else print MsgVerifyFailed;; sys_exit 1
    else print MsgInstallFailed;; sys_exit 1.

(** The two ways through [presence_and_install] that reach line 200 from
    [st], arriving in [st']: the runtime is present at the first check; or
    it is absent, the installation returns true, and the second check
    finds it. *)
Definition success_path {E : Env} (st st' : State E) : Prop :=
  (exists st1,
     check_node_installed (emit (EPrint MsgChecking) st) = (Ok true, st1)
     /\ st' = emit (EPrint MsgReady) st1)
  \/ (exists st1 st2 st3,
        check_node_installed (emit (EPrint MsgChecking) st) = (Ok false, st1)
        /\ install_nodejs (emit (EPrint MsgStartInstall) st1) = (Ok true, st2)
        /\ check_node_installed st2 = (Ok true, st3)
        /\ st' = emit (EPrint MsgConfigured) st3).

(** ** The decision table as the specification words it

    Section 4.5 of the specification: the Debian routine when the id is
    debian or ubuntu or the token set of ID_LIKE (split on whitespace,
    lower-cased) meets that pair; else the RedHat routine for rhel, centos,
    fedora and the tokens rhel, fedora; else the fallback. *)
Definition spec_select (id id_like : string) : StrategyKind :=
  let tokens := map PyStr.lower (PyStr.split_ws id_like) in
  let meets (names : list string) :=
    existsb (fun t => PyStr.in_list t names) tokens in
  if PyStr.in_list id ["debian"; "ubuntu"] || meets ["debian"; "ubuntu"]
  then Debian
  else if PyStr.in_list id ["rhel"; "centos"; "fedora"]
          || meets ["rhel"; "fedora"]
  then RedHat
  else Fallback.

(** ** Scripted hosts

    A host whose world is the number of commands spawned so far and whose
    answers are given by [respond]; [setup] returns at once. *)
Module Fake.

Definition env (respond : nat -> list string -> Spawn)
           (os_release : option string) (system : string) (euid : Z) : Env :=
  {| World := nat;
     spawn := fun argv n => (respond n argv, S n);
     open_read := fun _ _ => os_release;
     platform_system := fun _ => system;
     os_geteuid := fun _ => euid;
     setup := fun _ n => (Ok tt, n) |}.

(** The head of [argv] after an optional [sudo] or [sudo -E]. *)
Definition tool (argv : list string) : string :=
  match argv with
  | "sudo" :: "-E" :: t :: _ => t
  | "sudo" :: t :: _ => t
  | t :: _ => t
  | [] => EmptyString
  end.

(** Every command exits with return code 1. *)
Definition all_fail : nat -> list string -> Spawn :=
  fun _ _ => Exited 1 EmptyString.

(** Only the commands of the tools in [ok] succeed. *)
Definition only (ok : list string) : nat -> list string -> Spawn :=
  fun _ argv =>
    if PyStr.in_list (tool argv) ok then Exited 0 EmptyString
    else Exited 1 EmptyString.

(** Node.js is missing at the first command of the run (the pre-check)
    and answers the version query at any later one; the tools in [ok]
    succeed, [curl] prints [script], everything else exits with 1. *)
Definition installing (ok : list string) (script : string)
  : nat -> list string -> Spawn :=
  fun n argv =>
    if String.eqb (tool argv) "node" then
      if (n =? 0)%nat then NotFound else Exited 0 (String.append "v18.20.4" nl)
    else if PyStr.in_list (tool argv) ok then
      Exited 0 (if String.eqb (tool argv) "curl" then script else EmptyString)
    else Exited 1 EmptyString.

(** The tools in [broken] are found but cannot be started; every other
    command exits with return code 1. *)
Definition unrunnable (broken : list string) : nat -> list string -> Spawn :=
  fun _ argv =>
    if PyStr.in_list (tool argv) broken then SpawnError
    else Exited 1 EmptyString.

(** A host on which everything succeeds and [curl] answers [first] to
    the third command of the run and [second] to any later one. *)
Definition two_scripts (first second : string) : nat -> list string -> Spawn :=
  fun n argv =>
    if String.eqb (tool argv) "curl"
    then Exited 0 (if (n =? 2)%nat then first else second)
    else Exited 0 EmptyString.

End Fake.

(** ** Further observations *)

(** The first and the last character of a text. *)
Definition first_char (s : string) : option ascii :=
  match s with
  | EmptyString => None
  | String c _ => Some c
  end.

Fixpoint last_char (s : string) : option ascii :=
  match s with
  | EmptyString => None
  | String c EmptyString => Some c
  | String _ s' => last_char s'
  end.

(** The key a line of the metadata assigns: the text before its first
    [=], when it has one. *)
Definition assigned_key (line : string) : option string :=
  if PyStr.contains_char PyStr.equals line
  then Some (fst (PyStr.split1 PyStr.equals line))
  else None.

(** An upper-case ASCII letter, [A] to [Z]. *)
Definition is_upper (c : ascii) : bool :=
  let n := nat_of_ascii c in (65 <=? n)%nat && (n <=? 90)%nat.

Fixpoint has_upper (s : string) : bool :=
  match s with
  | EmptyString => false
  | String c s' => is_upper c || has_upper s'
  end.

(** The commands spawned in a history, with what became of them. *)
Fixpoint spawned (evs : list Event) : list (list string * Spawn) :=
  match evs with
  | [] => []
  | ERun argv r :: evs' => (argv, r) :: spawned evs'
  | _ :: evs' => spawned evs'
  end.

(** The exception [subprocess.run(..., check=True)] raises for a command
    that failed. *)
Definition exn_of_failure (r : Spawn) : Exn :=
  match r with
  | NotFound => FileNotFoundError
  | SpawnError => OtherError
  | Exited _ _ => CalledProcessError
  end.

(** [aborts_at_first_failure m]: every command [m] spawns exits with 0,
    except that [m] may raise, and then the last thing it did was to
    spawn a command that failed, and the exception is that of this
    command. *)
Definition aborts_at_first_failure {E : Env} {A} (m : M E A) : Prop :=
  forall st, exists evs,
    output (snd (m st)) = output st ++ evs
    /\ match fst (m st) with
       | Ok _ => Forall (fun run => failed (snd run) = false) (spawned evs)
       | Raise e =>
           exists evs0 argv r,
             evs = evs0 ++ [ERun argv r]
             /\ Forall (fun run => failed (snd run) = false) (spawned evs0)
             /\ failed r = true
             /\ e = exn_of_failure r
       end.

(** [returns_only P m]: a value [m] returns satisfies [P]. *)
Definition returns_only {E : Env} {A} (P : A -> Prop) (m : M E A) : Prop :=
  forall st a, fst (m st) = Ok a -> P a.

(** [raises_only P m]: an exception that escapes [m] satisfies [P]. *)
Definition raises_only {E : Env} {A} (P : Exn -> Prop) (m : M E A) : Prop :=
  forall st e, fst (m st) = Raise e -> P e.

(** [st'] was reached from [st] by a run whose last two events are a
    command behind [sudo] that names nodejs and exited with 0, and the
    line that reports the success: that of line 78 and 107, or that of
    line 132. *)
Definition ends_with_nodejs_install {E : Env} (st st' : State E) : Prop :=
  exists pre argv out fin,
    output st' = output st ++ pre ++ [ERun argv (Exited 0 out); EPrint fin]
    /\ head argv = Some "sudo"
    /\ In "nodejs" argv
    /\ (fin = MsgInstallOk \/ fin = MsgFallbackOk).

(** Sets of exceptions: those of a spawned command that failed; none;
    what the handler of line 23 lets through; what the handlers of lines
    81 and 110 let through; and the ways [main] ends without [setup]. *)
Definition spawn_failure (e : Exn) : Prop :=
  e = CalledProcessError \/ e = FileNotFoundError \/ e = OtherError.

Definition nothing (e : Exn) : Prop := False.

Definition unrunnable_command (e : Exn) : Prop := e = OtherError.

Definition missing_or_unrunnable (e : Exn) : Prop :=
  e = FileNotFoundError \/ e = OtherError.

Definition exit_1_or_uncaught (e : Exn) : Prop :=
  e = SystemExit 1 \/ e = FileNotFoundError \/ e = OtherError.

(** The commands the script may spawn: the version query, the fetch of
    one of the two vendor scripts, and behind [sudo] either [bash -c] with
    inherited environment or one of the five package managers. *)
Definition allowed_command (argv : list string) : Prop :=
  argv = ["node"; "--version"]
  \/ argv = ["curl"; "-fsSL"; "https://deb.nodesource.com/setup_18.x"]
  \/ argv = ["curl"; "-fsSL"; "https://rpm.nodesource.com/setup_18.x"]
  \/ (exists script, argv = ["sudo"; "-E"; "bash"; "-c"; script])
  \/ (exists manager args,
        argv = "sudo" :: manager :: args
        /\ In manager ["apt"; "yum"; "dnf"; "zypper"; "pacman"]).

(** What a run may do to its surroundings: print, spawn an allowed
    command, open the os-release file, call [setup] with http. *)
Definition allowed_event (ev : Event) : Prop :=
  match ev with
  | EPrint _ => True
  | ERun argv _ => allowed_command argv
  | EOpen path => path = "/etc/os-release"
  | ESetup mode => mode = "http"
  end.

(** The presence queries of a history: the spawns of [node --version]. *)
Definition is_presence_query (ev : Event) : bool :=
  match ev with
  | ERun [program; option] _ =>
      String.eqb program "node" && String.eqb option "--version"
  | _ => false
  end.

Definition not_a_query (ev : Event) : Prop := is_presence_query ev = false.

Fixpoint presence_queries (evs : list Event) : nat :=
  match evs with
  | [] => 0
  | ev :: evs' =>
      (if is_presence_query ev then 1 else 0) + presence_queries evs'
  end.

(** The routine of each kind. *)
Definition routine {E : Env} (k : StrategyKind) : M E bool :=
  match k with
  | Debian => install_nodejs_debian_based
  | RedHat => install_nodejs_redhat_based
  | Fallback => install_nodejs_fallback
  end.

(** * Properties *)

(** ** Worked runs *)

Example parse_demo :
  let d := parse_os_release
             ("NAME=" ++ String PyStr.dquote "Ubuntu" ++ String PyStr.dquote nl
              ++ "ID=ubuntu" ++ nl ++ "junk line" ++ nl ++ "ID_LIKE=Debian") in
  (dict_get d "NAME" "Unknown", dict_get d "ID" EmptyString,
   PyStr.lower (dict_get d "ID_LIKE" EmptyString), dict_get d "X" "dflt")
  = ("Ubuntu", "ubuntu", "debian", "dflt").
Proof. vm_compute. reflexivity. Qed.

Example strip_version :
  PyStr.strip (String.append " v18.20.4" nl) = "v18.20.4".
Proof. reflexivity. Qed.

Example ubuntu_end_to_end :
  run_script
    (Fake.env (Fake.installing ["apt"; "curl"; "bash"] "echo repo")
              (Some (String.concat nl ["NAME=Ubuntu"; "ID=ubuntu"; "ID_LIKE=debian"]))
              "Linux" 0) 0%nat
  = (0%Z,
     [EPrint MsgChecking;
      ERun ["node"; "--version"] NotFound;
      EPrint MsgNodeMissing;
      EPrint MsgStartInstall;
      EOpen "/etc/os-release";
      EPrint (MsgDetectedSystem "Ubuntu");
      EPrint (MsgDistroId "ubuntu");
      EPrint MsgDebianStart;
      ERun ["sudo"; "apt"; "update"] (Exited 0 EmptyString);
      ERun ["sudo"; "apt"; "install"; "-y"; "curl"; "gnupg"] (Exited 0 EmptyString);
      ERun ["curl"; "-fsSL"; "https://deb.nodesource.com/setup_18.x"]
           (Exited 0 "echo repo");
      ERun ["curl"; "-fsSL"; "https://deb.nodesource.com/setup_18.x"]
           (Exited 0 "echo repo");
      ERun ["sudo"; "-E"; "bash"; "-c"; "echo repo"] (Exited 0 EmptyString);
      ERun ["sudo"; "apt"; "install"; "-y"; "nodejs"] (Exited 0 EmptyString);
      EPrint MsgInstallOk;
      ERun ["node"; "--version"] (Exited 0 (String.append "v18.20.4" nl));
      EPrint (MsgNodeInstalled "v18.20.4");
      EPrint MsgConfigured;
      ESetup "http"]).
Proof. vm_compute. reflexivity. Qed.

(** ** Laws of the sequencing operators *)

Section Laws.
Context {E : Env}.

Lemma bind_ok {A B} (m : M E A) (k : A -> M E B) st a st' :
  m st = (Ok a, st') -> (m ≫= k) st = k a st'.
Proof. intros H. unfold mbind, M_bind, bind. now rewrite H. Qed.

Lemma bind_raise {A B} (m : M E A) (k : A -> M E B) st e st' :
  m st = (Raise e, st') -> (m ≫= k) st = (Raise e, st').
Proof. intros H. unfold mbind, M_bind, bind. now rewrite H. Qed.

Lemma bind_print {B} (msg : Msg) (k : unit -> M E B) st :
  (print msg ≫= k) st = k tt (emit (EPrint msg) st).
Proof. reflexivity. Qed.

Lemma try_ok {A} (body : M E A) catches handler st a st' :
  body st = (Ok a, st') -> try_except body catches handler st = (Ok a, st').
Proof. intros H. unfold try_except. now rewrite H. Qed.

Lemma try_caught {A} (body : M E A) catches handler st e st' :
  body st = (Raise e, st') -> catches e = true ->
  try_except body catches handler st = handler e st'.
Proof. intros H Hc. unfold try_except. now rewrite H, Hc. Qed.

Lemma try_uncaught {A} (body : M E A) catches handler st e st' :
  body st = (Raise e, st') -> catches e = false ->
  try_except body catches handler st = (Raise e, st').
Proof. intros H Hc. unfold try_except. now rewrite H, Hc. Qed.

(** What [subprocess_run] does, by the fate of the child. *)
Lemma run_exit0 argv st out w :
  spawn E argv (world st) = (Exited 0 out, w) ->
  subprocess_run argv st
  = (Ok out, {| world := w; output := output st ++ [ERun argv (Exited 0 out)] |}).
Proof. intros H. unfold subprocess_run. now rewrite H. Qed.

Lemma run_failed argv st r w :
  spawn E argv (world st) = (r, w) -> failed r = true ->
  subprocess_run argv st
  = (Raise (exn_of_failure r),
     {| world := w; output := output st ++ [ERun argv r] |}).
Proof.
  intros H Hf. unfold subprocess_run. rewrite H.
  destruct r as [rc out| |]; [|reflexivity|reflexivity].
  simpl in Hf. destruct (rc =? 0)%Z; [discriminate|reflexivity].
Qed.

Lemma emits_ret {A} Q (a : A) : emits Q (mret a : M E A).
Proof. intros st. exists []. simpl. now rewrite app_nil_r. Qed.

Lemma emits_raise {A} Q e : emits Q (raise e : M E A).
Proof. intros st. exists []. simpl. now rewrite app_nil_r. Qed.

Lemma emits_sys_exit {A} Q c : emits Q (sys_exit c : M E A).
Proof. apply emits_raise. Qed.

Lemma emits_print Q msg : Q (EPrint msg) -> emits Q (print msg : M E unit).
Proof. intros HQ st. exists [EPrint msg]. simpl. auto. Qed.

Lemma emits_run Q argv :
  (forall r, Q (ERun argv r)) -> emits Q (subprocess_run argv : M E string).
Proof.
  intros HQ st. unfold subprocess_run.
  destruct (spawn E argv (world st)) as [r w].
  exists [ERun argv r]. split; [|auto].
  destruct r as [rc out| |]; [destruct (rc =? 0)%Z| |]; reflexivity.
Qed.

Lemma emits_read Q path :
  Q (EOpen path) -> emits Q (read_file path : M E string).
Proof.
  intros HQ st. unfold read_file. exists [EOpen path]. split; [|auto].
  destruct (open_read E path (world st)); reflexivity.
Qed.

Lemma emits_setup Q mode :
  Q (ESetup mode) -> emits Q (call_setup mode : M E unit).
Proof.
  intros HQ st. unfold call_setup.
  destruct (setup E mode (world st)) as [r w].
  exists [ESetup mode]. simpl. auto.
Qed.

Lemma emits_bind {A B} Q (m : M E A) (k : A -> M E B) :
  emits Q m -> (forall a, emits Q (k a)) -> emits Q (m ≫= k).
Proof.
  intros Hm Hk st. unfold mbind, M_bind, bind.
  destruct (Hm st) as (evs1 & H1 & Q1).
  destruct (m st) as [[a|e] st1]; simpl in H1.
  - destruct (Hk a st1) as (evs2 & H2 & Q2).
    exists (evs1 ++ evs2). split.
    + now rewrite H2, H1, app_assoc.
    + now apply Forall_app.
  - exists evs1. simpl. auto.
Qed.

Lemma emits_try {A} Q (body : M E A) catches handler :
  emits Q body -> (forall e, emits Q (handler e)) ->
  emits Q (try_except body catches handler).
Proof.
  intros Hb Hh st. unfold try_except.
  destruct (Hb st) as (evs1 & H1 & Q1).
  destruct (body st) as [[a|e] st1]; simpl in H1.
  - exists evs1. simpl. auto.
  - destruct (catches e).
    + destruct (Hh e st1) as (evs2 & H2 & Q2).
      exists (evs1 ++ evs2). split.
      * now rewrite H2, H1, app_assoc.
      * now apply Forall_app.
    + exists evs1. simpl. auto.
Qed.

Lemma emits_if {A} Q (b : bool) (m1 m2 : M E A) :
  emits Q m1 -> emits Q m2 -> emits Q (if b then m1 else m2).
Proof. now destruct b. Qed.

Lemma emits_weaken {A} (Q Q' : Event -> Prop) (m : M E A) :
  (forall ev, Q ev -> Q' ev) -> emits Q m -> emits Q' m.
Proof.
  intros HQ Hm st. destruct (Hm st) as (evs & H & HF).
  exists evs. split; [assumption|]. eapply Forall_impl; eauto.
Qed.

End Laws.

(** Decomposes a goal [emits Q m] along the structure of [m]; the side
    conditions [Q ev] are left to [tac]. *)
Ltac emits_with tac :=
  repeat first
    [ apply emits_ret
    | apply emits_sys_exit
    | apply emits_raise
    | apply emits_print; tac
    | apply emits_run; intros; tac
    | apply emits_read; tac
    | apply emits_setup; tac
    | apply emits_bind; [|intros]
    | apply emits_try; [|intros]
    | apply emits_if
    | progress cbv zeta ].

Section Routines.
Context {E : Env}.

Lemma events_since_app (st st' : State E) evs :
  output st' = output st ++ evs -> events_since st st' = evs.
Proof. intros H. unfold events_since. rewrite H. apply drop_app_length. Qed.

Lemma strategies_started_app evs1 evs2 :
  strategies_started (evs1 ++ evs2)
  = strategies_started evs1 ++ strategies_started evs2.
Proof.
  induction evs1 as [|ev evs1 IH]; simpl; [reflexivity|].
  destruct (strategy_of_event ev); simpl; now rewrite IH.
Qed.

Lemma strategies_started_quiet evs :
  Forall quiet evs -> strategies_started evs = [].
Proof.
  induction 1 as [|ev evs [_ Hq] _ IH]; simpl; [reflexivity|].
  now rewrite Hq.
Qed.

Lemma quiet_any ev : quiet ev -> any_event ev.
Proof. intros _. exact I. Qed.

Lemma quiet_no_setup ev : quiet ev -> no_setup ev.
Proof. now intros [H _]. Qed.

Lemma check_node_installed_quiet : emits quiet (@check_node_installed E).
Proof. unfold check_node_installed. emits_with ltac:(now split). Qed.

Lemma detect_linux_distro_quiet : emits quiet (@detect_linux_distro E).
Proof. unfold detect_linux_distro. emits_with ltac:(now split). Qed.

Lemma fallback_loop_quiet cmds : emits quiet (@fallback_loop E cmds).
Proof.
  induction cmds as [|c cmds IH]; simpl.
  - emits_with ltac:(now split).
  - apply emits_bind; [emits_with ltac:(now split)|].
    intros [b|]; [apply emits_ret|exact IH].
Qed.

(** Past its announcement the fallback routine is quiet. *)
Lemma fallback_body_quiet :
  emits quiet
    (try_except (@fallback_loop E package_managers) is_Exception
       (fun _ => print MsgFallbackError;; mret false)).
Proof.
  apply emits_try; [apply fallback_loop_quiet|].
  intros. emits_with ltac:(now split).
Qed.

Lemma install_nodejs_fallback_no_setup :
  emits no_setup (@install_nodejs_fallback E).
Proof.
  unfold install_nodejs_fallback.
  apply emits_bind; [apply emits_print; reflexivity|intros _].
  eapply emits_weaken; [apply quiet_no_setup|apply fallback_body_quiet].
Qed.

Lemma install_nodejs_debian_based_no_setup :
  emits no_setup (@install_nodejs_debian_based E).
Proof. unfold install_nodejs_debian_based. emits_with ltac:(reflexivity). Qed.

Lemma install_nodejs_redhat_based_no_setup :
  emits no_setup (@install_nodejs_redhat_based E).
Proof. unfold install_nodejs_redhat_based. emits_with ltac:(reflexivity). Qed.

Lemma install_nodejs_for_no_setup info :
  emits no_setup (@install_nodejs_for E info).
Proof.
  unfold install_nodejs_for.
  destruct info as [[distro_id distro_id_like]|];
    repeat first
      [ apply install_nodejs_fallback_no_setup
      | apply install_nodejs_debian_based_no_setup
      | apply install_nodejs_redhat_based_no_setup
      | apply emits_ret
      | apply emits_print; reflexivity
      | apply emits_bind; [|intros]
      | apply emits_if
      | progress cbv zeta
      | match goal with |- emits _ (if ?b then _ else _) => destruct b end ].
Qed.

Lemma install_nodejs_no_setup : emits no_setup (@install_nodejs E).
Proof.
  unfold install_nodejs. apply emits_bind.
  - eapply emits_weaken; [apply quiet_no_setup|apply detect_linux_distro_quiet].
  - apply install_nodejs_for_no_setup.
Qed.

Lemma no_setup_any {A} (m : M E A) : emits no_setup m -> emits any_event m.
Proof. apply emits_weaken. intros ? _. exact I. Qed.

(** Combinators for [first_strategy]. *)
Lemma first_strategy_announce {A} k msg (rest : M E A) :
  strategy_of_event (EPrint msg) = Some k ->
  emits any_event rest ->
  first_strategy k (print msg;; rest).
Proof.
  intros Hk Hrest st. rewrite bind_print.
  destruct (Hrest (emit (EPrint msg) st)) as (evs & H & _).
  exists (EPrint msg :: evs). split.
  - rewrite H. simpl. now rewrite <- app_assoc.
  - cbn [strategies_started]. now rewrite Hk.
Qed.

Lemma first_strategy_after_print {A} k msg (rest : M E A) :
  strategy_of_event (EPrint msg) = None ->
  first_strategy k rest ->
  first_strategy k (print msg;; rest).
Proof.
  intros Hk Hrest st. rewrite bind_print.
  destruct (Hrest (emit (EPrint msg) st)) as (evs & H & Hhd).
  exists (EPrint msg :: evs). split.
  - rewrite H. simpl. now rewrite <- app_assoc.
  - cbn [strategies_started]. now rewrite Hk.
Qed.

Lemma first_strategy_bind {A B} k (m : M E A) (f : A -> M E B) :
  first_strategy k m -> (forall a, emits any_event (f a)) ->
  first_strategy k (m ≫= f).
Proof.
  intros Hm Hf st. unfold mbind, M_bind, bind.
  destruct (Hm st) as (evs1 & H1 & Hhd).
  destruct (m st) as [[a|e] st1]; simpl in H1.
  - destruct (Hf a st1) as (evs2 & H2 & _).
    exists (evs1 ++ evs2). split.
    + now rewrite H2, H1, app_assoc.
    + rewrite strategies_started_app.
      destruct (strategies_started evs1); [discriminate|assumption].
  - exists evs1. simpl. auto.
Qed.

End Routines.

(** ** Text lemmas *)

Lemma append_cons c s t :
  String.append (String c s) t = String c (String.append s t).
Proof. reflexivity. Qed.

Lemma prefix_spec needle hay :
  String.prefix needle hay = true <-> exists post, hay = String.append needle post.
Proof.
  revert hay. induction needle as [|c needle IH]; intros hay.
  - split; [intros _; now exists hay|intros _; now destruct hay].
  - destruct hay as [|d hay]; simpl.
    + split; [discriminate|intros [post H]; discriminate].
    + destruct (ascii_dec c d) as [->|Hne].
      * rewrite IH. split; intros [post H]; exists post.
        -- now rewrite H.
        -- now injection H.
      * split; [discriminate|intros [post H]].
        rewrite append_cons in H. congruence.
Qed.

Lemma contains_spec needle hay :
  PyStr.contains needle hay = true <-> Substring needle hay.
Proof.
  induction hay as [|d hay IH]; cbn [PyStr.contains].
  - rewrite orb_false_r, prefix_spec. split.
    + intros [post H]. now exists EmptyString, post.
    + intros (pre & post & H). destruct pre; [now exists post|discriminate].
  - rewrite orb_true_iff, IH, prefix_spec. split.
    + intros [[post H]|(pre & post & H)].
      * now exists EmptyString, post.
      * exists (String d pre), post. rewrite append_cons. now rewrite H.
    + intros (pre & post & H). destruct pre as [|c pre].
      * left. now exists post.
      * right. exists pre, post. rewrite append_cons in H. congruence.
Qed.

Lemma in_list_spec x xs : PyStr.in_list x xs = true <-> In x xs.
Proof.
  unfold PyStr.in_list. rewrite existsb_exists. split.
  - intros (y & Hy & Heq). apply String.eqb_eq in Heq. now subst.
  - intros H. exists x. split; [assumption|apply String.eqb_refl].
Qed.

Section Selection.
Context {E : Env}.

Lemma is_debian_family_spec distro_id distro_id_like :
  is_debian_family distro_id distro_id_like = true
  <-> (distro_id = "debian" \/ distro_id = "ubuntu"
       \/ Substring "debian" distro_id_like
       \/ Substring "ubuntu" distro_id_like).
Proof.
  unfold is_debian_family. rewrite orb_true_iff, in_list_spec.
  cbn [existsb In]. rewrite orb_false_r, orb_true_iff, !contains_spec.
  intuition congruence.
Qed.

Lemma is_redhat_family_spec distro_id distro_id_like :
  is_redhat_family distro_id distro_id_like = true
  <-> (distro_id = "rhel" \/ distro_id = "centos" \/ distro_id = "fedora"
       \/ Substring "rhel" distro_id_like
       \/ Substring "fedora" distro_id_like).
Proof.
  unfold is_redhat_family. rewrite orb_true_iff, in_list_spec.
  cbn [existsb In]. rewrite orb_false_r, orb_true_iff, !contains_spec.
  intuition congruence.
Qed.

Lemma first_strategy_fallback :
  first_strategy Fallback (@install_nodejs_fallback E).
Proof.
  apply first_strategy_announce; [reflexivity|].
  eapply emits_weaken; [apply quiet_any|apply fallback_body_quiet].
Qed.

Lemma first_strategy_debian :
  first_strategy Debian (@install_nodejs_debian_based E).
Proof.
  apply first_strategy_announce; [reflexivity|].
  emits_with ltac:(exact I).
Qed.

Lemma first_strategy_redhat :
  first_strategy RedHat (@install_nodejs_redhat_based E).
Proof.
  apply first_strategy_announce; [reflexivity|].
  emits_with ltac:(exact I).
Qed.

Lemma install_nodejs_for_first info :
  first_strategy (selected info) (@install_nodejs_for E info).
Proof.
  assert (Hother : forall distro_id,
    first_strategy Fallback
      (print (MsgUnsupportedDistro distro_id);; @install_nodejs_fallback E)).
  { intros. apply first_strategy_after_print;
      [reflexivity|apply first_strategy_fallback]. }
  assert (Hk : forall (ok : bool) distro_id,
    emits any_event
      (if ok then mret true
       else print (MsgUnsupportedDistro distro_id);; @install_nodejs_fallback E)).
  { intros [|] ?; [apply emits_ret|].
    apply emits_bind; [apply emits_print; exact I|intros _].
    apply no_setup_any, install_nodejs_fallback_no_setup. }
  unfold install_nodejs_for, selected, not_distro_id.
  destruct info as [[distro_id distro_id_like]|].
  - destruct (String.eqb distro_id EmptyString).
    + apply first_strategy_after_print;
        [reflexivity|apply first_strategy_fallback].
    + cbv zeta. destruct (is_debian_family distro_id distro_id_like).
      * apply first_strategy_bind; [apply first_strategy_debian|].
        intros ok. apply Hk.
      * destruct (is_redhat_family distro_id distro_id_like).
        -- apply first_strategy_bind; [apply first_strategy_redhat|].
           intros ok. apply Hk.
        -- apply Hother.
  - apply first_strategy_after_print;
      [reflexivity|apply first_strategy_fallback].
Qed.

End Selection.

(** ** Strategy selection *)

(** C1 (as amended).  Selection is total and deterministic, and the routine
    [install_nodejs] enters first follows this table, read top to bottom:
    no id (detection failed) or an empty id gives the fallback whatever
    ID_LIKE says; otherwise an id equal to debian or ubuntu, or an ID_LIKE
    text that contains debian or ubuntu as a substring, gives the Debian
    routine; otherwise an id equal to rhel, centos or fedora, or an ID_LIKE
    text that contains rhel or fedora as a substring, gives the RedHat
    routine; everything else gives the fallback. *)
Theorem selection_follows_code_table (E : Env) (st : State E)
        (info : option (string * string)) :
  head (strategies_started (events_since st (snd (install_nodejs_for info st))))
  = Some (match info with
          | None => Fallback
          | Some (distro_id, distro_id_like) =>
              if String.eqb distro_id EmptyString then Fallback
              else if PyStr.in_list distro_id ["debian"; "ubuntu"]
                      || PyStr.contains "debian" distro_id_like
                      || PyStr.contains "ubuntu" distro_id_like
              then Debian
              else if PyStr.in_list distro_id ["rhel"; "centos"; "fedora"]
                      || PyStr.contains "rhel" distro_id_like
                      || PyStr.contains "fedora" distro_id_like
              then RedHat
              else Fallback
          end).
Proof.
  destruct (install_nodejs_for_first info st) as (evs & Hout & Hhd).
  rewrite (events_since_app _ _ _ Hout), Hhd. f_equal.
  destruct info as [[distro_id distro_id_like]|]; [|reflexivity].
  unfold selected, is_debian_family, is_redhat_family. cbn [existsb].
  now rewrite !orb_false_r, !orb_assoc.
Qed.

(** C1, counterexample.  With an empty id and ID_LIKE=debian the table of
    the specification answers Debian while the code enters the fallback;
    with id arch and ID_LIKE=notdebian the table answers Fallback (no
    token is debian) while the code enters the Debian routine. *)
Lemma selection_differs_from_spec_table :
  let E := Fake.env Fake.all_fail None "Linux" 0 in
  let st : State E := @initial E 0%nat in
  let entered info :=
    head (strategies_started
            (events_since st (snd (install_nodejs_for info st)))) in
  (entered (Some (EmptyString, "debian")) = Some Fallback
   /\ spec_select EmptyString "debian" = Debian)
  /\ (entered (Some ("arch", "notdebian")) = Some Debian
      /\ spec_select "arch" "notdebian" = Fallback)
  /\ ~ (forall id id_like,
          entered (Some (id, id_like)) = Some (spec_select id id_like)).
Proof.
  intros E st entered. repeat split; try (vm_compute; reflexivity).
  intros H. specialize (H EmptyString "debian"). vm_compute in H. discriminate.
Qed.

(** ** A failed family routine *)

(** C2 (as amended).  When the Debian routine, or the RedHat routine, was
    chosen and returns failure, [install_nodejs] prints the notice of line
    164 and runs the fallback routine from the state the failed routine
    left; the result of the installation is the result of the fallback. *)
Theorem failed_family_routine_falls_back (E : Env) (st st1 : State E)
        (distro_id distro_id_like : string) :
  String.eqb distro_id EmptyString = false ->
  (is_debian_family distro_id distro_id_like = true
   /\ install_nodejs_debian_based st = (Ok false, st1))
  \/ (is_debian_family distro_id distro_id_like = false
      /\ is_redhat_family distro_id distro_id_like = true
      /\ install_nodejs_redhat_based st = (Ok false, st1)) ->
  install_nodejs_for (Some (distro_id, distro_id_like)) st
  = install_nodejs_fallback (emit (EPrint (MsgUnsupportedDistro distro_id)) st1).
Proof.
  intros Hid H. unfold install_nodejs_for, not_distro_id. rewrite Hid. cbv zeta.
  destruct H as [[Hd Hrun]|(Hd & Hr & Hrun)]; rewrite Hd; [|rewrite Hr];
    now rewrite (bind_ok _ _ _ _ _ Hrun).
Qed.

Lemma failed_family_routine_falls_back_witness :
  let E := Fake.env (Fake.only ["apt"]) None "Linux" 0 in
  let st : State E := @initial E 0%nat in
  install_nodejs_for (Some ("ubuntu", EmptyString)) st
  = install_nodejs_fallback
      (emit (EPrint (MsgUnsupportedDistro "ubuntu"))
            (snd (install_nodejs_debian_based st))).
Proof.
  intros E st.
  apply (failed_family_routine_falls_back E st
           (snd (install_nodejs_debian_based st)) "ubuntu" EmptyString).
  - reflexivity.
  - left. split; reflexivity.
Defined.

(** C2, counterexample.  On an Ubuntu host where [curl] fails, the Debian
    routine returns failure, the fallback is entered, its first candidate
    installs the runtime, and the run ends with exit status 0. *)
Lemma failed_debian_then_fallback_succeeds :
  run_script
    (Fake.env (Fake.installing ["apt"] EmptyString)
              (Some (String.concat nl ["ID=ubuntu"])) "Linux" 0) 0%nat
  = (0%Z,
     [EPrint MsgChecking;
      ERun ["node"; "--version"] NotFound;
      EPrint MsgNodeMissing;
      EPrint MsgStartInstall;
      EOpen "/etc/os-release";
      EPrint (MsgDetectedSystem "Unknown");
      EPrint (MsgDistroId "ubuntu");
      EPrint MsgDebianStart;
      ERun ["sudo"; "apt"; "update"] (Exited 0 EmptyString);
      ERun ["sudo"; "apt"; "install"; "-y"; "curl"; "gnupg"] (Exited 0 EmptyString);
      ERun ["curl"; "-fsSL"; "https://deb.nodesource.com/setup_18.x"]
           (Exited 1 EmptyString);
      EPrint MsgInstallError;
      EPrint (MsgUnsupportedDistro "ubuntu");
      EPrint MsgFallbackStart;
      ERun ["sudo"; "apt"; "install"; "-y"; "nodejs"; "npm"] (Exited 0 EmptyString);
      EPrint MsgFallbackOk;
      ERun ["node"; "--version"] (Exited 0 (String.append "v18.20.4" nl));
      EPrint (MsgNodeInstalled "v18.20.4");
      EPrint MsgConfigured;
      ESetup "http"]).
Proof. vm_compute. reflexivity. Qed.

(** ** The fallback routine *)

Section FallbackLoop.
Context {E : Env}.

(** The loop over any list of candidates: it tries a prefix of the list
    in order, skips the candidates that exit with another return code or
    are missing, stops at the first success, fails when the list is
    exhausted, and lets any other exception of a candidate escape. *)
Lemma fallback_loop_spec cmds (st : State E) :
  exists outcomes tail,
    output (snd (fallback_loop cmds st))
    = output st ++ attempts cmds outcomes ++ tail
    /\ (length outcomes <= length cmds)%nat
    /\ ((fst (fallback_loop cmds st) = Ok true
         /\ tail = [EPrint MsgFallbackOk]
         /\ exists pre out,
              outcomes = pre ++ [Exited 0 out]
              /\ Forall (fun r => failed r = true /\ r <> SpawnError) pre)
        \/ (fst (fallback_loop cmds st) = Ok false
            /\ tail = [EPrint MsgAllFailed]
            /\ length outcomes = length cmds
            /\ Forall (fun r => failed r = true /\ r <> SpawnError) outcomes)
        \/ (fst (fallback_loop cmds st) = Raise OtherError
            /\ tail = []
            /\ exists pre,
                 outcomes = pre ++ [SpawnError]
                 /\ Forall (fun r => failed r = true /\ r <> SpawnError) pre)).
Proof.
  revert st. induction cmds as [|c cmds IH]; intros st.
  - exists [], [EPrint MsgAllFailed]. simpl. split; [reflexivity|].
    split; [lia|]. right. left. auto.
  - cbn [fallback_loop].
    destruct (spawn E ("sudo" :: c) (world st)) as [r w] eqn:Hsp.
    destruct (failed r) eqn:Hf.
    + pose proof (run_failed _ _ _ _ Hsp Hf) as Hrun.
      set (st1 := {| world := w;
                     output := output st ++ [ERun ("sudo" :: c) r] |}) in *.
      assert (Hcase : r = SpawnError \/ r <> SpawnError).
      { destruct r; auto; right; discriminate. }
      destruct Hcase as [-> | Hne].
      * (* this candidate cannot be run: the exception escapes the loop *)
        assert (Hstep :
          try_except
            (subprocess_run ("sudo" :: c);; print MsgFallbackOk;; mret (Some true))
            is_CalledProcessError_or_FileNotFoundError
            (fun _ => mret None) st = (Raise OtherError, st1)).
        { erewrite try_uncaught; [reflexivity|apply bind_raise, Hrun|reflexivity]. }
        rewrite (bind_raise _ _ _ _ _ Hstep).
        exists [SpawnError], []. split; [|split].
        -- subst st1. unfold attempts. cbn [map zip_with snd output].
           rewrite zip_with_nil_r. now rewrite app_nil_r.
        -- simpl. lia.
        -- right. right. repeat split. exists []. split; [reflexivity|constructor].
      * (* this candidate fails: caught, next candidate *)
        assert (Hstep :
          try_except
            (subprocess_run ("sudo" :: c);; print MsgFallbackOk;; mret (Some true))
            is_CalledProcessError_or_FileNotFoundError
            (fun _ => mret None) st = (Ok None, st1)).
        { erewrite try_caught; [reflexivity|apply bind_raise, Hrun|].
          destruct r; [reflexivity|reflexivity|contradiction]. }
        rewrite (bind_ok _ _ _ _ _ Hstep).
        destruct (IH st1) as (outcomes & tail & Hout & Hlen & Hres).
        exists (r :: outcomes), tail. split; [|split].
        -- rewrite Hout. subst st1. cbn [output attempts map zip_with].
           now rewrite <- app_assoc.
        -- simpl. lia.
        -- destruct Hres as [(Hr & Htail & pre & out & Hpre & Hall)
                            |[(Hr & Htail & Hl & Hall)
                             |(Hr & Htail & pre & Hpre & Hall)]].
           ++ left. repeat split; try assumption.
              exists (r :: pre), out. split; [now rewrite Hpre|].
              now constructor.
           ++ right. left. repeat split; try assumption;
                [simpl; lia|now constructor].
           ++ right. right. repeat split; try assumption.
              exists (r :: pre). split; [now rewrite Hpre|].
              now constructor.
    + (* this candidate succeeds: the function returns *)
      destruct r as [rc out| |]; [|discriminate|discriminate].
      simpl in Hf. apply negb_false_iff, Z.eqb_eq in Hf. subst rc.
      pose proof (run_exit0 _ _ _ _ Hsp) as Hrun.
      set (st1 := {| world := w;
                     output := output st ++ [ERun ("sudo" :: c) (Exited 0 out)] |})
        in *.
      assert (Hstep :
        try_except
          (subprocess_run ("sudo" :: c);; print MsgFallbackOk;; mret (Some true))
          is_CalledProcessError_or_FileNotFoundError
          (fun _ => mret None) st
        = (Ok (Some true), emit (EPrint MsgFallbackOk) st1)).
      { apply try_ok. now rewrite (bind_ok _ _ _ _ _ Hrun). }
      rewrite (bind_ok _ _ _ _ _ Hstep).
      exists [Exited 0 out], [EPrint MsgFallbackOk]. split; [|split].
      * subst st1. unfold attempts. cbn [map zip_with].
        rewrite zip_with_nil_r. cbn. now rewrite <- app_assoc.
      * simpl. lia.
      * left. repeat split. exists [], out. split; [reflexivity|constructor].
Qed.

End FallbackLoop.


(** ** The presence check *)

(** What the presence check does, by the fate of [node --version]. *)
Lemma check_node_installed_run (E : Env) (st : State E) :
  let (r, w) := spawn E ["node"; "--version"] (world st) in
  let st' := {| world := w;
                output := output st ++ [ERun ["node"; "--version"] r] |} in
  check_node_installed st
  = match r with
    | Exited 0 stdout =>
        (Ok true, emit (EPrint (MsgNodeInstalled (PyStr.strip stdout))) st')
    | Exited _ _ | NotFound =>
        (Ok false, emit (EPrint MsgNodeMissing) st')
    | SpawnError => (Raise OtherError, st')
    end.
Proof.
  destruct (spawn E ["node"; "--version"] (world st)) as [r w] eqn:Hsp.
  unfold check_node_installed, try_except, mbind, M_bind, bind, subprocess_run.
  rewrite Hsp. destruct r as [[|p|p] out| |]; reflexivity.
Qed.

(** C7 (as amended).  The presence check keeps two failures of the
    version query to itself: a missing executable and a return code other
    than 0 both give [False] and report no version.  A version query that
    exits with return code 0 gives [True] and reports the standard output
    stripped of surrounding whitespace as the version.  Any other
    exception of the command runner (the program is found but cannot be
    started, or its output cannot be decoded) is not caught by line 23 and
    leaves the check as it was raised, with nothing printed. *)
Theorem presence_check_catches_exit_and_missing (E : Env) (st : State E) :
  let (r, w) := spawn E ["node"; "--version"] (world st) in
  let st' := {| world := w;
                output := output st ++ [ERun ["node"; "--version"] r] |} in
  check_node_installed st
  = match r with
    | Exited 0 stdout =>
        (Ok true, emit (EPrint (MsgNodeInstalled (PyStr.strip stdout))) st')
    | Exited _ _ | NotFound =>
        (Ok false, emit (EPrint MsgNodeMissing) st')
    | SpawnError => (Raise OtherError, st')
    end.
Proof. exact (check_node_installed_run E st). Qed.

(** C7, counterexample.  On a host where [node] is found but cannot be
    started, the presence check returns neither [True] nor [False]: the
    exception of the command runner escapes it. *)
Lemma presence_check_propagates_other_errors :
  let E := Fake.env (Fake.unrunnable ["node"]) None "Linux" 0 in
  let run := check_node_installed (@initial E 0%nat) in
  fst run = Raise OtherError
  /\ (forall installed : bool, fst run <> Ok installed)
  /\ output (snd run) = [ERun ["node"; "--version"] SpawnError].
Proof. vm_compute. repeat split. discriminate. Qed.

(** ** The gate and the pipeline *)

Section Pipeline.
Context {E : Env}.

Lemma bind_assoc {A B C} (m : M E A) (f : A -> M E B) (g : B -> M E C) st :
  ((m ≫= f) ≫= g) st = (m ≫= (fun a => f a ≫= g)) st.
Proof.
  unfold mbind, M_bind, bind. now destruct (m st) as [[a|e] st1].
Qed.

Lemma main_pipeline_split (st : State E) :
  main_pipeline st = (presence_and_install;; call_setup "http") st.
Proof.
  unfold main_pipeline, presence_and_install.
  rewrite bind_assoc, !bind_print, bind_assoc. reflexivity.
Qed.

Lemma main_gate (st : State E) :
  main st
  = if String.eqb (platform_system E (world st)) "Linux"
    then main_pipeline (after_gate st)
    else (Raise (SystemExit 1), emit (EPrint MsgLinuxOnly) st).
Proof.
  unfold main, after_gate, mbind, M_bind, bind, get_platform_system, get_euid.
  destruct (String.eqb (platform_system E (world st)) "Linux"); cbn.
  - now destruct (os_geteuid E (world st) =? 0)%Z.
  - reflexivity.
Qed.

Lemma presence_and_install_no_setup : emits no_setup (@presence_and_install E).
Proof.
  unfold presence_and_install.
  assert (Hc : emits no_setup (@check_node_installed E)).
  { eapply emits_weaken; [apply quiet_no_setup|apply check_node_installed_quiet]. }
  repeat first
    [ apply Hc
    | apply install_nodejs_no_setup
    | apply emits_sys_exit
    | apply emits_print; reflexivity
    | apply emits_bind; [|intros]
    | apply emits_if ].
Qed.

Lemma presence_and_install_ok (st st' : State E) :
  presence_and_install st = (Ok tt, st') <-> success_path st st'.
Proof.
  unfold presence_and_install, success_path. rewrite bind_print.
  set (st0 := emit (EPrint MsgChecking) st).
  unfold mbind at 1. unfold M_bind at 1. unfold bind at 1.
  destruct (check_node_installed st0) as [[[|]|e] st1] eqn:H1.
  - (* present at the first check *)
    cbn. split.
    + intros [= <-]. left. eauto.
    + intros [(s1 & [= <-] & ->)|(s1 & s2 & s3 & [=] & _)]. reflexivity.
  - (* absent: install *)
    rewrite bind_print.
    unfold mbind at 1. unfold M_bind at 1. unfold bind at 1.
    destruct (install_nodejs (emit (EPrint MsgStartInstall) st1))
      as [[[|]|e] st2] eqn:H2.
    + unfold mbind at 1. unfold M_bind at 1. unfold bind at 1.
      destruct (check_node_installed st2) as [[[|]|e] st3] eqn:H3.
      * cbn. split.
        -- intros [= <-]. right. exists st1, st2, st3. auto.
        -- intros [(s1 & [=] & _)|(s1 & s2 & s3 & [= <-] & Hi & Hc & ->)].
           rewrite H2 in Hi. injection Hi as <-.
           rewrite H3 in Hc. now injection Hc as <-.
      * cbn. split; [discriminate|].
        intros [(s1 & [=] & _)|(s1 & s2 & s3 & [= <-] & Hi & Hc & _)].
        rewrite H2 in Hi. injection Hi as <-.
        rewrite H3 in Hc. discriminate.
      * split; [discriminate|].
        intros [(s1 & [=] & _)|(s1 & s2 & s3 & [= <-] & Hi & Hc & _)].
        rewrite H2 in Hi. injection Hi as <-.
        rewrite H3 in Hc. discriminate.
    + cbn. split; [discriminate|].
      intros [(s1 & [=] & _)|(s1 & s2 & s3 & [= <-] & Hi & _)].
      rewrite H2 in Hi. discriminate.
    + split; [discriminate|].
      intros [(s1 & [=] & _)|(s1 & s2 & s3 & [= <-] & Hi & _)].
      rewrite H2 in Hi. discriminate.
  - split; [discriminate|].
    intros [(s1 & [=] & _)|(s1 & s2 & s3 & [=] & _)].
Qed.

End Pipeline.

Section MainRuns.
Context {E : Env}.

Lemma main_on_linux (st : State E) :
  platform_system E (world st) = "Linux" ->
  main st = main_pipeline (after_gate st).
Proof. intros H. rewrite main_gate, H. reflexivity. Qed.

Lemma world_after_gate (st : State E) : world (after_gate st) = world st.
Proof. unfold after_gate. now destruct (os_geteuid E (world st) =? 0)%Z. Qed.

Lemma output_after_gate (st : State E) :
  output (after_gate st)
  = output st ++ (if (os_geteuid E (world st) =? 0)%Z then []
                  else [EPrint MsgSudoAdvice]).
Proof.
  unfold after_gate. destruct (os_geteuid E (world st) =? 0)%Z.
  - now rewrite app_nil_r.
  - reflexivity.
Qed.

(** Past the gate the pipeline always reaches the presence check. *)
Lemma main_pipeline_begins (st : State E) :
  exists r rest,
    output (snd (main_pipeline st))
    = output st ++ EPrint MsgChecking :: ERun ["node"; "--version"] r :: rest.
Proof.
  rewrite main_pipeline_split.
  assert (Hrest : forall b : bool, emits any_event
    ((if b then print MsgReady
      else
        print MsgStartInstall;;
        ok ← install_nodejs;
        if ok : bool then
          verified ← check_node_installed;
          if verified : bool then print MsgConfigured
          else print MsgVerifyFailed;; sys_exit 1
        else print MsgInstallFailed;; sys_exit 1) : M E unit)).
  { intros b.
    assert (Hc : emits any_event (@check_node_installed E)).
    { eapply emits_weaken; [apply quiet_any|apply check_node_installed_quiet]. }
    repeat first
      [ apply Hc
      | apply no_setup_any, install_nodejs_no_setup
      | apply emits_sys_exit
      | apply emits_print; exact I
      | apply emits_bind; [|intros]
      | apply emits_if ]. }
  unfold presence_and_install. rewrite bind_assoc, bind_print.
  set (st0 := emit (EPrint MsgChecking) st).
  assert (Hbegin : exists r evs,
            output (snd (check_node_installed st0))
            = output st0 ++ ERun ["node"; "--version"] r :: evs).
  { pose proof (check_node_installed_run E st0) as Hc.
    destruct (spawn E ["node"; "--version"] (world st0)) as [r w].
    cbv zeta in Hc. rewrite Hc. exists r.
    destruct r as [[|p|p] out| |]; eexists; cbn [snd emit output];
      rewrite <- ?app_assoc; reflexivity. }
  destruct Hbegin as (r & evs1 & Hout1). exists r.
  rewrite bind_assoc. unfold mbind at 1. unfold M_bind at 1. unfold bind at 1.
  destruct (check_node_installed st0) as [[b|e] st1]; cbn [snd] in *.
  - assert (Hk : emits any_event
      (((if b then print MsgReady
         else
           print MsgStartInstall;;
           ok ← install_nodejs;
           if ok : bool then
             verified ← check_node_installed;
             if verified : bool then print MsgConfigured
             else print MsgVerifyFailed;; sys_exit 1
           else print MsgInstallFailed;; sys_exit 1) : M E unit);;
       call_setup "http")).
    { apply emits_bind; [apply Hrest|intros; apply emits_setup; exact I]. }
    destruct (Hk st1) as (evs & Hout & _).
    exists (evs1 ++ evs). rewrite Hout, Hout1. subst st0.
    cbn [emit output]. rewrite <- !app_assoc. reflexivity.
  - exists evs1. rewrite Hout1. subst st0.
    cbn [emit output]. rewrite <- !app_assoc. reflexivity.
Qed.

End MainRuns.

(** ** Claims on [main] *)

(** C8.  On a host whose [platform.system()] is not Linux, [main] prints
    one line and exits with status 1: no command is spawned and nothing
    else happens.  On Linux a non-root user only adds the warning of line
    178; with or without it the pipeline goes on to the presence check. *)
Theorem platform_gate_halts_and_privilege_warns (E : Env) (st : State E) :
  let warning :=
    if (os_geteuid E (world st) =? 0)%Z then [] else [EPrint MsgSudoAdvice] in
  if String.eqb (platform_system E (world st)) "Linux" then
    main st = main_pipeline {| world := world st; output := output st ++ warning |}
    /\ exists r rest,
         events_since st (snd (main st))
         = warning ++ EPrint MsgChecking :: ERun ["node"; "--version"] r :: rest
  else
    main st = (Raise (SystemExit 1), emit (EPrint MsgLinuxOnly) st)
    /\ exit_code (fst (main st)) = 1%Z
    /\ events_since st (snd (main st)) = [EPrint MsgLinuxOnly].
Proof.
  intros warning. rewrite main_gate.
  destruct (String.eqb (platform_system E (world st)) "Linux").
  - assert (Hst : after_gate st
                  = {| world := world st; output := output st ++ warning |}).
    { unfold after_gate. subst warning.
      destruct (os_geteuid E (world st) =? 0)%Z; [|reflexivity].
      rewrite app_nil_r. now destruct st. }
    rewrite Hst. split; [reflexivity|].
    destruct (main_pipeline_begins
                {| world := world st; output := output st ++ warning |})
      as (r & rest & Hout).
    exists r, rest. apply events_since_app. rewrite Hout. cbn [output].
    now rewrite <- app_assoc.
  - repeat split. apply events_since_app. reflexivity.
Qed.

(** C4.  When the first presence check finds the runtime, the whole run
    is: the optional privilege warning, the presence check, the two
    status lines, and the call [setup("http")].  The metadata file is not
    opened and no other command is spawned.  The run ends as [setup] ends:
    with exit status 0 once [setup] returns. *)
Theorem present_runtime_short_circuits (E : Env) (st : State E)
        (version : string) (w : World E) :
  platform_system E (world st) = "Linux" ->
  spawn E ["node"; "--version"] (world st) = (Exited 0 version, w) ->
  events_since st (snd (main st))
  = (if (os_geteuid E (world st) =? 0)%Z then [] else [EPrint MsgSudoAdvice])
    ++ [EPrint MsgChecking;
        ERun ["node"; "--version"] (Exited 0 version);
        EPrint (MsgNodeInstalled (PyStr.strip version));
        EPrint MsgReady;
        ESetup "http"]
  /\ fst (main st) = fst (setup E "http" w)
  /\ (fst (setup E "http" w) = Ok tt -> exit_code (fst (main st)) = 0%Z).
Proof.
  intros Hsys Hsp. rewrite (main_on_linux st Hsys).
  unfold main_pipeline. rewrite bind_print.
  set (st0 := emit (EPrint MsgChecking) (after_gate st)).
  pose proof (check_node_installed_run E st0) as Hc.
  assert (Hw : world st0 = world st) by apply world_after_gate.
  rewrite Hw, Hsp in Hc. cbv zeta in Hc.
  rewrite (bind_ok _ _ _ _ _ Hc), bind_print.
  unfold call_setup. cbn [emit world output].
  destruct (setup E "http" w) as [r w'] eqn:Hs. cbn [fst snd].
  split; [|split].
  - apply events_since_app. cbn [output]. subst st0. cbn [emit output].
    rewrite output_after_gate, <- !app_assoc. reflexivity.
  - reflexivity.
  - intros ->. reflexivity.
Qed.

Lemma present_runtime_short_circuits_witness :
  let E := Fake.env (Fake.only ["node"]) None "Linux" 1000 in
  let st : State E := @initial E 0%nat in
  (platform_system E (world st) = "Linux"
   /\ spawn E ["node"; "--version"] (world st) = (Exited 0 EmptyString, 1%nat))
  /\ (events_since st (snd (main st))
      = [EPrint MsgSudoAdvice;
         EPrint MsgChecking;
         ERun ["node"; "--version"] (Exited 0 EmptyString);
         EPrint (MsgNodeInstalled EmptyString);
         EPrint MsgReady;
         ESetup "http"]
      /\ fst (main st) = Ok tt
      /\ (Ok tt = Ok tt -> exit_code (fst (main st)) = 0%Z)).
Proof.
  intros E st. split; [split; reflexivity|].
  apply (present_runtime_short_circuits E st EmptyString 1%nat); reflexivity.
Defined.

Section Outcomes.
Context {E : Env}.

Lemma no_setup_after_gate (st st' : State E) evs :
  output st' = output (after_gate st) ++ evs -> Forall no_setup evs ->
  Forall no_setup (events_since st st').
Proof.
  intros Hout Hevs.
  rewrite (events_since_app st st'
             ((if (os_geteuid E (world st) =? 0)%Z then []
               else [EPrint MsgSudoAdvice]) ++ evs)).
  - apply Forall_app. split; [|assumption].
    destruct (os_geteuid E (world st) =? 0)%Z; repeat constructor.
  - now rewrite Hout, output_after_gate, <- app_assoc.
Qed.

(** A pipeline that raises before line 200 never reaches [setup]. *)
Lemma main_raises_before_setup (st st' : State E) e :
  platform_system E (world st) = "Linux" ->
  presence_and_install (after_gate st) = (Raise e, st') ->
  main st = (Raise e, st') /\ Forall no_setup (events_since st st').
Proof.
  intros Hsys Hrun. split.
  - rewrite (main_on_linux st Hsys), main_pipeline_split.
    now rewrite (bind_raise _ _ _ _ _ Hrun).
  - destruct (presence_and_install_no_setup (after_gate st)) as (evs & Hout & Hq).
    rewrite Hrun in Hout. eapply no_setup_after_gate; eauto.
Qed.

(** A pipeline that reaches line 200 calls [setup("http")] there, for
    the first time. *)
Lemma main_reaches_setup (st st' : State E) :
  platform_system E (world st) = "Linux" ->
  presence_and_install (after_gate st) = (Ok tt, st') ->
  main st = call_setup "http" st' /\ Forall no_setup (events_since st st').
Proof.
  intros Hsys Hrun. split.
  - rewrite (main_on_linux st Hsys), main_pipeline_split.
    now rewrite (bind_ok _ _ _ _ _ Hrun).
  - destruct (presence_and_install_no_setup (after_gate st)) as (evs & Hout & Hq).
    rewrite Hrun in Hout. eapply no_setup_after_gate; eauto.
Qed.

End Outcomes.

(** C5.  When the first check finds no runtime, the installation returns
    true, and the second check still finds no runtime, [main] prints the
    verification failure and exits with status 1 at once: nothing is
    retried and [setup] is not called. *)
Theorem unverified_install_is_fatal (E : Env) (st st1 st2 st3 : State E) :
  platform_system E (world st) = "Linux" ->
  check_node_installed (emit (EPrint MsgChecking) (after_gate st))
  = (Ok false, st1) ->
  install_nodejs (emit (EPrint MsgStartInstall) st1) = (Ok true, st2) ->
  check_node_installed st2 = (Ok false, st3) ->
  main st = (Raise (SystemExit 1), emit (EPrint MsgVerifyFailed) st3)
  /\ exit_code (fst (main st)) = 1%Z
  /\ Forall no_setup (events_since st (snd (main st))).
Proof.
  intros Hsys H1 H2 H3.
  assert (Hrun : presence_and_install (after_gate st)
                 = (Raise (SystemExit 1), emit (EPrint MsgVerifyFailed) st3)).
  { unfold presence_and_install.
    rewrite bind_print, (bind_ok _ _ _ _ _ H1), bind_print.
    rewrite (bind_ok _ _ _ _ _ H2), (bind_ok _ _ _ _ _ H3). reflexivity. }
  destruct (main_raises_before_setup st _ _ Hsys Hrun) as [Hmain Hq].
  rewrite Hmain. auto.
Qed.

Lemma unverified_install_is_fatal_witness :
  let E := Fake.env (Fake.only ["apt"; "curl"; "bash"])
                    (Some (String.concat nl ["ID=ubuntu"])) "Linux" 0 in
  let st : State E := @initial E 0%nat in
  let st1 := snd (check_node_installed (emit (EPrint MsgChecking) (after_gate st))) in
  let st2 := snd (install_nodejs (emit (EPrint MsgStartInstall) st1)) in
  let st3 := snd (check_node_installed st2) in
  (platform_system E (world st) = "Linux"
   /\ check_node_installed (emit (EPrint MsgChecking) (after_gate st))
      = (Ok false, st1)
   /\ install_nodejs (emit (EPrint MsgStartInstall) st1) = (Ok true, st2)
   /\ check_node_installed st2 = (Ok false, st3))
  /\ (main st = (Raise (SystemExit 1), emit (EPrint MsgVerifyFailed) st3)
      /\ exit_code (fst (main st)) = 1%Z
      /\ Forall no_setup (events_since st (snd (main st)))).
Proof.
  intros E st st1 st2 st3.
  split; [repeat split; reflexivity|].
  apply (unverified_install_is_fatal E st st1 st2 st3); reflexivity.
Defined.

(** C9.  [setup] is called exactly on the successful runs.  On Linux, a
    run that finds the runtime at the first check, or installs it and
    finds it at the second check, ends by calling [setup("http")], the
    only call of [setup] in the run, and exits with status 0 once [setup]
    returns.  Every other run (another platform, a failed installation, a
    failed verification, an exception that escapes) never calls [setup]. *)
Theorem setup_http_exactly_on_success (E : Env) (st : State E) :
  (forall st',
     platform_system E (world st) = "Linux" ->
     success_path (after_gate st) st' ->
     main st = call_setup "http" st'
     /\ Forall no_setup (events_since st st')
     /\ events_since st (snd (main st)) = events_since st st' ++ [ESetup "http"]
     /\ (fst (setup E "http" (world st')) = Ok tt ->
         exit_code (fst (main st)) = 0%Z))
  /\ ((platform_system E (world st) <> "Linux"
       \/ forall st', ~ success_path (after_gate st) st') ->
      Forall no_setup (events_since st (snd (main st)))).
Proof.
  split.
  - intros st' Hsys Hpath. apply presence_and_install_ok in Hpath.
    destruct (main_reaches_setup st st' Hsys Hpath) as [Hmain Hq].
    destruct (presence_and_install_no_setup (after_gate st)) as (evs & Hout & _).
    rewrite Hpath in Hout. cbn [snd] in Hout.
    rewrite Hmain. unfold call_setup.
    destruct (setup E "http" (world st')) as [r w'] eqn:Hs. cbn [fst snd].
    repeat split; try assumption.
    + rewrite output_after_gate, <- app_assoc in Hout.
      rewrite (events_since_app st st' _ Hout).
      apply events_since_app. cbn [output]. now rewrite Hout, <- app_assoc.
    + intros ->. reflexivity.
  - intros Hfail. rewrite main_gate.
    destruct (String.eqb (platform_system E (world st)) "Linux") eqn:Hsys.
    + apply String.eqb_eq in Hsys.
      destruct Hfail as [Hne|Hno]; [contradiction|].
      destruct (presence_and_install (after_gate st)) as [[[]|e] st'] eqn:Hrun.
      * apply presence_and_install_ok in Hrun. now apply Hno in Hrun.
      * destruct (main_raises_before_setup st st' e Hsys Hrun) as [Hmain Hq].
        rewrite <- (main_on_linux st Hsys), Hmain. exact Hq.
    + cbn [snd]. rewrite (events_since_app st _ [EPrint MsgLinuxOnly]).
      * repeat constructor.
      * reflexivity.
Qed.

Lemma setup_http_exactly_on_success_witness :
  let E := Fake.env (Fake.installing ["apt"; "curl"; "bash"] "echo repo")
                    (Some (String.concat nl ["ID=ubuntu"])) "Linux" 0 in
  let st : State E := @initial E 0%nat in
  let st1 := snd (check_node_installed (emit (EPrint MsgChecking) (after_gate st))) in
  let st2 := snd (install_nodejs (emit (EPrint MsgStartInstall) st1)) in
  let st3 := snd (check_node_installed st2) in
  let st' := emit (EPrint MsgConfigured) st3 in
  (platform_system E (world st) = "Linux" /\ success_path (after_gate st) st')
  /\ (main st = call_setup "http" st'
      /\ Forall no_setup (events_since st st')
      /\ events_since st (snd (main st)) = events_since st st' ++ [ESetup "http"]
      /\ (fst (setup E "http" (world st')) = Ok tt ->
          exit_code (fst (main st)) = 0%Z)).
Proof.
  intros E st st1 st2 st3 st'.
  assert (Hpath : success_path (after_gate st) st').
  { right. exists st1, st2, st3. repeat split; reflexivity. }
  split; [split; [reflexivity|exact Hpath]|].
  apply (proj1 (setup_http_exactly_on_success E st) st'); [reflexivity|exact Hpath].
Defined.

(** ** The Debian routine *)

(** C10.  When every command succeeds, the Debian routine spawns, in
    order: the index refresh, the install of curl and gnupg, the fetch of
    the vendor script, the same fetch again, [sudo -E bash -c] on the
    standard output of the second fetch, and the install of nodejs.  The
    output [script1] of the first fetch is used nowhere. *)
Theorem debian_runs_second_fetch_only (E : Env) (st : State E)
        (out1 out2 script1 script2 out5 out6 : string)
        (w1 w2 w3 w4 w5 w6 : World E) :
  let fetch := ["curl"; "-fsSL"; "https://deb.nodesource.com/setup_18.x"] in
  spawn E ["sudo"; "apt"; "update"] (world st) = (Exited 0 out1, w1) ->
  spawn E ["sudo"; "apt"; "install"; "-y"; "curl"; "gnupg"] w1
  = (Exited 0 out2, w2) ->
  spawn E fetch w2 = (Exited 0 script1, w3) ->
  spawn E fetch w3 = (Exited 0 script2, w4) ->
  spawn E ["sudo"; "-E"; "bash"; "-c"; script2] w4 = (Exited 0 out5, w5) ->
  spawn E ["sudo"; "apt"; "install"; "-y"; "nodejs"] w5 = (Exited 0 out6, w6) ->
  install_nodejs_debian_based st
  = (Ok true,
     {| world := w6;
        output :=
          output st
          ++ [EPrint MsgDebianStart;
              ERun ["sudo"; "apt"; "update"] (Exited 0 out1);
              ERun ["sudo"; "apt"; "install"; "-y"; "curl"; "gnupg"]
                   (Exited 0 out2);
              ERun fetch (Exited 0 script1);
              ERun fetch (Exited 0 script2);
              ERun ["sudo"; "-E"; "bash"; "-c"; script2] (Exited 0 out5);
              ERun ["sudo"; "apt"; "install"; "-y"; "nodejs"] (Exited 0 out6);
              EPrint MsgInstallOk] |}).
Proof.
  intros fetch H1 H2 H3 H4 H5 H6.
  unfold install_nodejs_debian_based. rewrite bind_print.
  apply try_ok. cbv zeta.
  erewrite bind_ok; [|apply run_exit0; cbn [emit world]; exact H1].
  erewrite bind_ok; [|apply run_exit0; cbn [world]; exact H2].
  erewrite bind_ok; [|apply run_exit0; cbn [world]; exact H3].
  erewrite bind_ok; [|apply run_exit0; cbn [world]; exact H4].
  erewrite bind_ok; [|apply run_exit0; cbn [world]; exact H5].
  erewrite bind_ok; [|apply run_exit0; cbn [world]; exact H6].
  rewrite bind_print. unfold mret, M_ret, ret, emit. cbn [world output].
  rewrite <- !app_assoc. reflexivity.
Qed.

Lemma debian_runs_second_fetch_only_witness :
  let E := Fake.env (Fake.two_scripts "exit 1" "echo repo") None "Linux" 0 in
  let st : State E := @initial E 0%nat in
  let fetch := ["curl"; "-fsSL"; "https://deb.nodesource.com/setup_18.x"] in
  (spawn E ["sudo"; "apt"; "update"] (world st) = (Exited 0 EmptyString, 1%nat)
   /\ spawn E ["sudo"; "apt"; "install"; "-y"; "curl"; "gnupg"] 1%nat
      = (Exited 0 EmptyString, 2%nat)
   /\ spawn E fetch 2%nat = (Exited 0 "exit 1", 3%nat)
   /\ spawn E fetch 3%nat = (Exited 0 "echo repo", 4%nat)
   /\ spawn E ["sudo"; "-E"; "bash"; "-c"; "echo repo"] 4%nat
      = (Exited 0 EmptyString, 5%nat)
   /\ spawn E ["sudo"; "apt"; "install"; "-y"; "nodejs"] 5%nat
      = (Exited 0 EmptyString, 6%nat))
  /\ install_nodejs_debian_based st
     = (Ok true,
        Build_State E 6%nat
          (output st
           ++ [EPrint MsgDebianStart;
               ERun ["sudo"; "apt"; "update"] (Exited 0 EmptyString);
               ERun ["sudo"; "apt"; "install"; "-y"; "curl"; "gnupg"]
                    (Exited 0 EmptyString);
               ERun fetch (Exited 0 "exit 1");
               ERun fetch (Exited 0 "echo repo");
               ERun ["sudo"; "-E"; "bash"; "-c"; "echo repo"]
                    (Exited 0 EmptyString);
               ERun ["sudo"; "apt"; "install"; "-y"; "nodejs"]
                    (Exited 0 EmptyString);
               EPrint MsgInstallOk])).
Proof.
  intros E st fetch.
  split; [repeat split; reflexivity|].
  apply (debian_runs_second_fetch_only E st
           EmptyString EmptyString "exit 1" "echo repo" EmptyString EmptyString
           1%nat 2%nat 3%nat 4%nat 5%nat 6%nat);
    reflexivity.
Defined.

(** ** Distribution detection *)

Section Detection.
Context {E : Env}.

(** What [detect_linux_distro] does, by the fate of the read. *)
Lemma detect_linux_distro_run (st : State E) :
  detect_linux_distro st
  = let st0 := emit (EOpen "/etc/os-release") st in
    match open_read E "/etc/os-release" (world st) with
    | None => (Ok None, emit (EPrint MsgDetectFailed) st0)
    | Some content =>
        let distro_info := parse_os_release content in
        let distro_id :=
          PyStr.lower (dict_get distro_info "ID" EmptyString) in
        (Ok (Some (distro_id,
                   PyStr.lower (dict_get distro_info "ID_LIKE" EmptyString))),
         emit (EPrint (MsgDistroId distro_id))
           (emit (EPrint (MsgDetectedSystem
                            (dict_get distro_info "NAME" "Unknown"))) st0))
    end.
Proof.
  unfold detect_linux_distro, try_except, mbind, M_bind, bind, read_file.
  destruct (open_read E "/etc/os-release" (world st)); reflexivity.
Qed.

(** Without an id [install_nodejs_for] goes to the fallback and to
    nothing else. *)
Lemma install_nodejs_for_without_id info (st : State E) :
  not_distro_id info = true ->
  exists evs,
    output (snd (install_nodejs_for info st))
    = output st ++ EPrint MsgUnknownDistro :: EPrint MsgFallbackStart :: evs
    /\ Forall quiet evs.
Proof.
  intros Hno.
  assert (Hrun : install_nodejs_for info st
                 = (print MsgUnknownDistro;; install_nodejs_fallback) st).
  { unfold install_nodejs_for. destruct info as [[distro_id distro_id_like]|];
      [now rewrite Hno|reflexivity]. }
  rewrite Hrun. unfold install_nodejs_fallback. rewrite !bind_print.
  destruct (fallback_body_quiet
              (emit (EPrint MsgFallbackStart) (emit (EPrint MsgUnknownDistro) st)))
    as (evs & Hout & Hq).
  exists evs. split; [|exact Hq].
  rewrite Hout. cbn [emit output]. now rewrite <- !app_assoc.
Qed.

End Detection.

(** C6 (as amended).  Detection never raises.  When the metadata cannot
    be read it returns the pair of Nones: no id, no ID_LIKE and no display
    name; it prints the failure notice instead.  When the metadata can be
    read it returns the lower-cased ID and ID_LIKE values, empty text for
    an absent key, and prints the NAME value, or Unknown when there is
    none.  When the read fails, or the metadata gives no ID or an empty
    one, [install_nodejs] enters the fallback routine and no other. *)
Theorem unidentified_distro_routes_to_fallback (E : Env) (st : State E) :
  let metadata := open_read E "/etc/os-release" (world st) in
  detect_linux_distro st
  = (let st0 := emit (EOpen "/etc/os-release") st in
     match metadata with
     | None => (Ok None, emit (EPrint MsgDetectFailed) st0)
     | Some content =>
         let distro_info := parse_os_release content in
         let distro_id :=
           PyStr.lower (dict_get distro_info "ID" EmptyString) in
         (Ok (Some (distro_id,
                    PyStr.lower (dict_get distro_info "ID_LIKE" EmptyString))),
          emit (EPrint (MsgDistroId distro_id))
            (emit (EPrint (MsgDetectedSystem
                             (dict_get distro_info "NAME" "Unknown"))) st0))
     end)
  /\ (match metadata with
      | None => True
      | Some content =>
          dict_get (parse_os_release content) "ID" EmptyString = EmptyString
      end ->
      strategies_started (events_since st (snd (install_nodejs st)))
      = [Fallback]).
Proof.
  intros metadata. split; [apply detect_linux_distro_run|]. intros Hid.
  destruct (detect_linux_distro_quiet st) as (evs1 & Hout1 & Hq1).
  assert (Hinfo : exists info st1,
            detect_linux_distro st = (Ok info, st1)
            /\ not_distro_id info = true).
  { rewrite detect_linux_distro_run. cbv zeta. fold metadata.
    destruct metadata as [content|]; [|eauto].
    do 2 eexists. split; [reflexivity|]. cbn [not_distro_id].
    now rewrite Hid. }
  destruct Hinfo as (info & st1 & Hdet & Hno).
  rewrite Hdet in Hout1. cbn [snd] in Hout1.
  unfold install_nodejs. rewrite (bind_ok _ _ _ _ _ Hdet).
  destruct (install_nodejs_for_without_id info st1 Hno) as (evs2 & Hout2 & Hq2).
  rewrite (events_since_app st _
             (evs1 ++ EPrint MsgUnknownDistro :: EPrint MsgFallbackStart :: evs2)).
  - rewrite strategies_started_app, (strategies_started_quiet _ Hq1).
    cbn [strategies_started strategy_of_event app].
    now rewrite (strategies_started_quiet _ Hq2).
  - now rewrite Hout2, Hout1, <- app_assoc.
Qed.

Lemma unidentified_distro_routes_to_fallback_witness :
  let junk := String.concat nl ["PRETTY junk"; "ID_LIKE=Debian"] in
  let E := Fake.env Fake.all_fail (Some junk) "Linux" 0 in
  let st : State E := @initial E 0%nat in
  let named := String.concat nl ["NAME=Mint"; "ID=LinuxMint"; "ID_LIKE=Ubuntu"] in
  let E' := Fake.env Fake.all_fail (Some named) "Linux" 0 in
  let st' : State E' := @initial E' 0%nat in
  dict_get (parse_os_release junk) "ID" EmptyString = EmptyString
  /\ detect_linux_distro st
     = (Ok (Some (EmptyString, "debian")),
        Build_State E 0%nat
          [EOpen "/etc/os-release";
           EPrint (MsgDetectedSystem "Unknown");
           EPrint (MsgDistroId EmptyString)])
  /\ strategies_started (events_since st (snd (install_nodejs st))) = [Fallback]
  /\ detect_linux_distro st'
     = (Ok (Some ("linuxmint", "ubuntu")),
        Build_State E' 0%nat
          [EOpen "/etc/os-release";
           EPrint (MsgDetectedSystem "Mint");
           EPrint (MsgDistroId "linuxmint")]).
Proof.
  intros junk E st named E' st'.
  destruct (unidentified_distro_routes_to_fallback E st) as [Hdetect Hroute].
  destruct (unidentified_distro_routes_to_fallback E' st') as [Hdetect' _].
  split; [reflexivity|]. split; [exact Hdetect|].
  split; [apply Hroute; reflexivity|exact Hdetect'].
Defined.

(** C6, counterexample.  When the metadata cannot be read, detection
    returns the pair of Nones, not an info with empty id, and the only
    line printed is the failure notice: no display name Unknown. *)
Lemma unreadable_metadata_gives_no_distro_info :
  let E := Fake.env Fake.all_fail None "Linux" 0 in
  let run := detect_linux_distro (@initial E 0%nat) in
  fst run = Ok None
  /\ fst run <> Ok (Some (EmptyString, EmptyString))
  /\ output (snd run) = [EOpen "/etc/os-release"; EPrint MsgDetectFailed].
Proof. vm_compute. repeat split. discriminate. Qed.

(** * Further properties of the script *)

(** ** The os-release dictionary *)

Lemma distro_info_step_other (m : gmap string string) line k :
  assigned_key line <> Some k ->
  distro_info_step m line !! k = m !! k.
Proof.
  unfold assigned_key, distro_info_step. intros Hk.
  destruct (PyStr.contains_char PyStr.equals line); [|reflexivity].
  destruct (PyStr.split1 PyStr.equals line) as [key value]. cbn [fst] in Hk.
  apply lookup_insert_ne. congruence.
Qed.

Lemma distro_info_step_assigned (m : gmap string string) line k :
  assigned_key line = Some k ->
  distro_info_step m line !! k
  = Some (PyStr.strip_quotes (snd (PyStr.split1 PyStr.equals line))).
Proof.
  unfold assigned_key, distro_info_step. intros Hk.
  destruct (PyStr.contains_char PyStr.equals line); [|discriminate].
  destruct (PyStr.split1 PyStr.equals line) as [key value]. cbn [fst snd] in *.
  injection Hk as ->. apply lookup_insert_eq.
Qed.

Lemma distro_info_loop_other lines (m : gmap string string) k :
  Forall (fun line => assigned_key line <> Some k) lines ->
  foldl distro_info_step m lines !! k = m !! k.
Proof.
  intros H. revert m. induction H as [|line lines Hl _ IH]; intros m.
  - reflexivity.
  - cbn [foldl]. rewrite IH. now apply distro_info_step_other.
Qed.

(** X1.  A key that no line of the metadata assigns is absent from the
    dictionary, so [get] answers its default for it; lines without [=]
    assign nothing. *)
Theorem unassigned_key_gets_default (content k dflt : string) :
  Forall (fun line => assigned_key line <> Some k)
         (PyStr.split PyStr.newline content) ->
  parse_os_release content !! k = None
  /\ dict_get (parse_os_release content) k dflt = dflt.
Proof.
  intros H. unfold dict_get, parse_os_release.
  rewrite (distro_info_loop_other _ _ _ H), lookup_empty. auto.
Qed.

Lemma unassigned_key_gets_default_witness :
  let content := String.concat nl ["# no assignments here"; "NAME"; "ID_LIKE=debian"] in
  Forall (fun line => assigned_key line <> Some "ID")
         (PyStr.split PyStr.newline content)
  /\ (parse_os_release content !! "ID" = None
      /\ dict_get (parse_os_release content) "ID" EmptyString = EmptyString).
Proof.
  intros content.
  assert (H : Forall (fun line => assigned_key line <> Some "ID")
                     (PyStr.split PyStr.newline content)).
  { vm_compute. repeat constructor; discriminate. }
  split; [exact H|].
  apply (unassigned_key_gets_default content "ID" EmptyString H).
Defined.

(** X2.  The last line that assigns a key decides its value: the text
    after the first [=] of that line, stripped of surrounding double
    quotes.  Earlier assignments of the key are overridden. *)
Theorem last_assignment_wins (content k : string) (before after : list string)
        (line : string) :
  PyStr.split PyStr.newline content = before ++ line :: after ->
  assigned_key line = Some k ->
  Forall (fun line' => assigned_key line' <> Some k) after ->
  parse_os_release content !! k
  = Some (PyStr.strip_quotes (snd (PyStr.split1 PyStr.equals line))).
Proof.
  intros Hsplit Hk Hafter. unfold parse_os_release.
  rewrite Hsplit, foldl_app. cbn [foldl].
  rewrite (distro_info_loop_other _ _ _ Hafter).
  now apply distro_info_step_assigned.
Qed.

Lemma last_assignment_wins_witness :
  let q := String PyStr.dquote EmptyString in
  let second := String.append "ID=" (String.append q (String.append "a=b" q)) in
  let content := String.concat nl ["ID=first"; second; "NAME=x"] in
  (PyStr.split PyStr.newline content = ["ID=first"] ++ second :: ["NAME=x"]
   /\ assigned_key second = Some "ID"
   /\ Forall (fun line' => assigned_key line' <> Some "ID") ["NAME=x"])
  /\ parse_os_release content !! "ID" = Some "a=b".
Proof.
  intros q second content.
  assert (H1 : PyStr.split PyStr.newline content
               = ["ID=first"] ++ second :: ["NAME=x"]) by reflexivity.
  assert (H2 : assigned_key second = Some "ID") by reflexivity.
  assert (H3 : Forall (fun line' => assigned_key line' <> Some "ID") ["NAME=x"]).
  { repeat constructor. vm_compute. discriminate. }
  split; [auto|].
  exact (last_assignment_wins content "ID" ["ID=first"] ["NAME=x"] second H1 H2 H3).
Defined.

Lemma split1_key_no_sep sep s :
  PyStr.contains_char sep (fst (PyStr.split1 sep s)) = false.
Proof.
  induction s as [|c s IH]; cbn [PyStr.split1]; [reflexivity|].
  destruct (Ascii.eqb c sep) eqn:Hc; [reflexivity|].
  destruct (PyStr.split1 sep s) as [key value]. cbn [fst PyStr.contains_char] in *.
  rewrite IH, orb_false_r, Ascii.eqb_sym. exact Hc.
Qed.

Lemma lstrip_first_char p s c :
  first_char (PyStr.lstrip p s) = Some c -> p c = false.
Proof.
  induction s as [|d s IH]; cbn [PyStr.lstrip]; [discriminate|].
  destruct (p d) eqn:Hd; [exact IH|].
  cbn [first_char]. now intros [= <-].
Qed.

Lemma rstrip_first_char p s c :
  first_char (PyStr.rstrip p s) = Some c -> first_char s = Some c.
Proof.
  destruct s as [|d s]; cbn [PyStr.rstrip]; [discriminate|].
  destruct (PyStr.rstrip p s); [destruct (p d)|]; [discriminate| |]; auto.
Qed.

Lemma rstrip_last_char p s c :
  last_char (PyStr.rstrip p s) = Some c -> p c = false.
Proof.
  induction s as [|d s IH]; cbn [PyStr.rstrip]; [discriminate|].
  destruct (PyStr.rstrip p s) as [|b r].
  - destruct (p d) eqn:Hd; [discriminate|]. cbn. now intros [= <-].
  - exact IH.
Qed.

Lemma strip_quotes_no_quote_at_ends s :
  first_char (PyStr.strip_quotes s) <> Some PyStr.dquote
  /\ last_char (PyStr.strip_quotes s) <> Some PyStr.dquote.
Proof.
  unfold PyStr.strip_quotes, PyStr.strip_with. split; intros H.
  - apply rstrip_first_char, lstrip_first_char in H.
    now rewrite Ascii.eqb_refl in H.
  - apply rstrip_last_char in H. now rewrite Ascii.eqb_refl in H.
Qed.

Lemma distro_info_loop_invariant (P : string -> string -> Prop) lines
      (m : gmap string string) :
  (forall line key value,
     PyStr.contains_char PyStr.equals line = true ->
     PyStr.split1 PyStr.equals line = (key, value) ->
     P key (PyStr.strip_quotes value)) ->
  map_Forall P m ->
  map_Forall P (foldl distro_info_step m lines).
Proof.
  intros Hstep. revert m. induction lines as [|line lines IH]; intros m Hm.
  - exact Hm.
  - cbn [foldl]. apply IH. unfold distro_info_step.
    destruct (PyStr.contains_char PyStr.equals line) eqn:Heq; [|exact Hm].
    destruct (PyStr.split1 PyStr.equals line) as [key value] eqn:Hsp.
    apply map_Forall_insert_2; eauto.
Qed.

(** X3.  Whatever the metadata, no key of the dictionary contains [=],
    and no value starts or ends with a double quote. *)
Theorem dictionary_keys_and_values_are_clean (content k v : string) :
  parse_os_release content !! k = Some v ->
  PyStr.contains_char PyStr.equals k = false
  /\ first_char v <> Some PyStr.dquote
  /\ last_char v <> Some PyStr.dquote.
Proof.
  revert k v. unfold parse_os_release.
  apply (distro_info_loop_invariant
           (fun k v => PyStr.contains_char PyStr.equals k = false
                       /\ first_char v <> Some PyStr.dquote
                       /\ last_char v <> Some PyStr.dquote)).
  - intros line key value _ Hsp. split.
    + pose proof (split1_key_no_sep PyStr.equals line) as H.
      now rewrite Hsp in H.
    + apply strip_quotes_no_quote_at_ends.
  - apply map_Forall_empty.
Qed.

Lemma dictionary_keys_and_values_are_clean_witness :
  let q := String PyStr.dquote EmptyString in
  let content :=
    String.append "PRETTY_NAME="
      (String.append q (String.append q (String.append "Ubuntu 22.04=LTS" q))) in
  parse_os_release content !! "PRETTY_NAME" = Some "Ubuntu 22.04=LTS"
  /\ (PyStr.contains_char PyStr.equals "PRETTY_NAME" = false
      /\ first_char "Ubuntu 22.04=LTS" <> Some PyStr.dquote
      /\ last_char "Ubuntu 22.04=LTS" <> Some PyStr.dquote).
Proof.
  intros q content.
  assert (H : parse_os_release content !! "PRETTY_NAME" = Some "Ubuntu 22.04=LTS")
    by reflexivity.
  split; [exact H|].
  exact (dictionary_keys_and_values_are_clean content _ _ H).
Defined.

(** ** Detection *)

Lemma lower_char_not_upper c : is_upper (PyStr.lower_char c) = false.
Proof.
  unfold PyStr.lower_char, is_upper.
  destruct ((65 <=? nat_of_ascii c)%nat && (nat_of_ascii c <=? 90)%nat) eqn:Hc.
  - apply andb_true_iff in Hc as [H1 H2].
    apply Nat.leb_le in H1, H2.
    rewrite nat_ascii_embedding by lia.
    apply andb_false_iff. right. apply Nat.leb_gt. lia.
  - exact Hc.
Qed.

Lemma lower_has_no_upper s : has_upper (PyStr.lower s) = false.
Proof.
  induction s as [|c s IH]; [reflexivity|].
  cbn [PyStr.lower has_upper]. now rewrite lower_char_not_upper, IH.
Qed.

(** X4.  Detection only reads: it leaves the world as it found it, and
    the id and the ID_LIKE text it returns contain no upper-case ASCII
    letter, whatever the metadata spells. *)
Theorem detection_reads_only_and_lower_cases (E : Env) (st st' : State E)
        (distro_id distro_id_like : string) :
  detect_linux_distro st = (Ok (Some (distro_id, distro_id_like)), st') ->
  world st' = world st
  /\ has_upper distro_id = false
  /\ has_upper distro_id_like = false.
Proof.
  rewrite detect_linux_distro_run. cbv zeta.
  destruct (open_read E "/etc/os-release" (world st)) as [content|];
    [|discriminate].
  intros [= <- <- <-]. repeat split; apply lower_has_no_upper.
Qed.

Lemma detection_reads_only_and_lower_cases_witness :
  let E := Fake.env Fake.all_fail
             (Some (String.concat nl ["ID=Ubuntu"; "ID_LIKE=DEBIAN"])) "Linux" 0 in
  let st : State E := @initial E 7%nat in
  let st' := snd (detect_linux_distro st) in
  detect_linux_distro st = (Ok (Some ("ubuntu", "debian")), st')
  /\ (world st' = world st
      /\ has_upper "ubuntu" = false
      /\ has_upper "debian" = false).
Proof.
  intros E st st'.
  assert (H : detect_linux_distro st = (Ok (Some ("ubuntu", "debian")), st'))
    by reflexivity.
  split; [exact H|].
  exact (detection_reads_only_and_lower_cases E st st' "ubuntu" "debian" H).
Defined.

Section FromMetadata.
Context {E : Env}.

(** The routine [install_nodejs] enters first, from the metadata. *)
Lemma install_nodejs_first_from_metadata (st : State E) content :
  open_read E "/etc/os-release" (world st) = Some content ->
  head (strategies_started (events_since st (snd (install_nodejs st))))
  = Some (selected
            (Some (PyStr.lower (dict_get (parse_os_release content) "ID" EmptyString),
                   PyStr.lower (dict_get (parse_os_release content) "ID_LIKE"
                                         EmptyString)))).
Proof.
  intros Hread.
  pose proof (detect_linux_distro_run st) as Hdet.
  cbv zeta in Hdet. rewrite Hread in Hdet.
  destruct (detect_linux_distro_quiet st) as (evs1 & Hout1 & Hq1).
  rewrite Hdet in Hout1. cbn [snd] in Hout1.
  unfold install_nodejs. rewrite (bind_ok _ _ _ _ _ Hdet).
  match goal with
  | |- context [install_nodejs_for ?i ?s] =>
      destruct (install_nodejs_for_first i s) as (evs2 & Hout2 & Hhd)
  end.
  rewrite (events_since_app st _ (evs1 ++ evs2)).
  - rewrite strategies_started_app, (strategies_started_quiet _ Hq1). exact Hhd.
  - now rewrite Hout2, Hout1, <- app_assoc.
Qed.

End FromMetadata.

(** X5.  A readable metadata file whose last ID line gives debian or
    ubuntu, in any letter case and with or without surrounding double
    quotes, makes [install_nodejs] enter the Debian routine first. *)
Theorem id_line_selects_debian (E : Env) (st : State E) (content : string)
        (before after : list string) (line : string) :
  open_read E "/etc/os-release" (world st) = Some content ->
  PyStr.split PyStr.newline content = before ++ line :: after ->
  assigned_key line = Some "ID" ->
  Forall (fun line' => assigned_key line' <> Some "ID") after ->
  In (PyStr.lower (PyStr.strip_quotes (snd (PyStr.split1 PyStr.equals line))))
     ["debian"; "ubuntu"] ->
  head (strategies_started (events_since st (snd (install_nodejs st))))
  = Some Debian.
Proof.
  intros Hread Hsplit Hkey Hafter Hin.
  rewrite (install_nodejs_first_from_metadata st content Hread). f_equal.
  assert (Hid : parse_os_release content !! "ID"
                = Some (PyStr.strip_quotes (snd (PyStr.split1 PyStr.equals line)))).
  { unfold parse_os_release. rewrite Hsplit, foldl_app. cbn [foldl].
    rewrite (distro_info_loop_other _ _ _ Hafter).
    now apply distro_info_step_assigned. }
  unfold dict_get at 1. rewrite Hid. cbn [default].
  set (id := PyStr.lower _) in *.
  unfold selected, is_debian_family.
  apply in_list_spec in Hin. rewrite Hin. cbn [orb].
  destruct (String.eqb id EmptyString) eqn:Hempty; [|reflexivity].
  apply String.eqb_eq in Hempty. rewrite Hempty in Hin. discriminate.
Qed.

Lemma id_line_selects_debian_witness :
  let q := String PyStr.dquote EmptyString in
  let line := String.append "ID=" (String.append q (String.append "Ubuntu" q)) in
  let content := String.concat nl ["NAME=Some Linux"; "ID=arch"; line; "VERSION=1"] in
  let E := Fake.env Fake.all_fail (Some content) "Linux" 0 in
  let st : State E := @initial E 0%nat in
  (open_read E "/etc/os-release" (world st) = Some content
   /\ PyStr.split PyStr.newline content
      = ["NAME=Some Linux"; "ID=arch"] ++ line :: ["VERSION=1"]
   /\ assigned_key line = Some "ID"
   /\ Forall (fun line' => assigned_key line' <> Some "ID") ["VERSION=1"]
   /\ In (PyStr.lower (PyStr.strip_quotes (snd (PyStr.split1 PyStr.equals line))))
         ["debian"; "ubuntu"])
  /\ head (strategies_started (events_since st (snd (install_nodejs st))))
     = Some Debian.
Proof.
  intros q line content E st.
  assert (H1 : open_read E "/etc/os-release" (world st) = Some content)
    by reflexivity.
  assert (H2 : PyStr.split PyStr.newline content
               = ["NAME=Some Linux"; "ID=arch"] ++ line :: ["VERSION=1"])
    by reflexivity.
  assert (H3 : assigned_key line = Some "ID") by reflexivity.
  assert (H4 : Forall (fun line' => assigned_key line' <> Some "ID") ["VERSION=1"]).
  { repeat constructor. vm_compute. discriminate. }
  assert (H5 : In (PyStr.lower (PyStr.strip_quotes
                                  (snd (PyStr.split1 PyStr.equals line))))
                  ["debian"; "ubuntu"]).
  { right. left. reflexivity. }
  split; [auto 6|].
  exact (id_line_selects_debian E st content _ _ line H1 H2 H3 H4 H5).
Defined.

(** ** The family routines stop at the first failing command *)

Section Chains.
Context {E : Env}.

Lemma spawned_app evs1 evs2 :
  spawned (evs1 ++ evs2) = spawned evs1 ++ spawned evs2.
Proof.
  induction evs1 as [|ev evs1 IH]; [reflexivity|].
  destruct ev; cbn [spawned app]; now rewrite ?IH.
Qed.

Lemma aborts_ret {A} (a : A) : aborts_at_first_failure (mret a : M E A).
Proof. intros st. exists []. cbn. rewrite app_nil_r. auto. Qed.

Lemma aborts_print msg : aborts_at_first_failure (print msg : M E unit).
Proof. intros st. exists [EPrint msg]. cbn. auto. Qed.

Lemma aborts_run argv : aborts_at_first_failure (subprocess_run argv : M E string).
Proof.
  intros st. unfold subprocess_run.
  destruct (spawn E argv (world st)) as [r w].
  exists [ERun argv r]. split.
  - destruct r as [rc out| |]; [destruct (rc =? 0)%Z| |]; reflexivity.
  - destruct r as [rc out| |]; [destruct (rc =? 0)%Z eqn:Hrc| |]; cbn [fst].
    + repeat constructor. cbn. now rewrite Hrc.
    + exists [], argv, (Exited rc out). cbn. rewrite Hrc. auto.
    + exists [], argv, NotFound. cbn. auto.
    + exists [], argv, SpawnError. cbn. auto.
Qed.

Lemma aborts_bind {A B} (m : M E A) (k : A -> M E B) :
  aborts_at_first_failure m -> (forall a, aborts_at_first_failure (k a)) ->
  aborts_at_first_failure (m ≫= k).
Proof.
  intros Hm Hk st. unfold mbind, M_bind, bind.
  destruct (Hm st) as (evs1 & H1 & P1).
  destruct (m st) as [[a|e] st1]; cbn [fst snd] in *.
  - destruct (Hk a st1) as (evs2 & H2 & P2).
    exists (evs1 ++ evs2). split; [now rewrite H2, H1, app_assoc|].
    destruct (fst (k a st1)) as [b|e].
    + rewrite spawned_app. now apply Forall_app.
    + destruct P2 as (evs0 & argv & r & -> & Hok & Hf & He).
      exists (evs1 ++ evs0), argv, r. rewrite app_assoc, spawned_app.
      repeat split; try assumption. now apply Forall_app.
  - exists evs1. auto.
Qed.

Lemma returns_only_ret {A} (P : A -> Prop) (a : A) :
  P a -> returns_only P (mret a : M E A).
Proof. intros HP st b [= <-]. exact HP. Qed.

Lemma returns_only_bind {A B} (P : B -> Prop) (m : M E A) (k : A -> M E B) :
  (forall a, returns_only P (k a)) -> returns_only P (m ≫= k).
Proof.
  intros Hk st b. unfold mbind, M_bind, bind.
  destruct (m st) as [[a|e] st1]; [apply Hk|discriminate].
Qed.

(** A routine of the shape of lines 54-83 and 88-112: an announcement,
    then a body under [except CalledProcessError]. *)
Lemma family_routine_outcome start (body : M E bool) (st : State E) :
  aborts_at_first_failure body ->
  returns_only (fun b => b = true) body ->
  let routine :=
    print start;;
    try_except body is_CalledProcessError
      (fun _ => print MsgInstallError;; mret false) in
  exists evs pre,
    output (snd (routine st)) = output st ++ evs
    /\ Forall (fun run => failed (snd run) = false) pre
    /\ ((fst (routine st) = Ok true /\ spawned evs = pre)
        \/ (exists argv rc out,
              fst (routine st) = Ok false
              /\ rc <> 0%Z
              /\ spawned evs = pre ++ [(argv, Exited rc out)]
              /\ last evs = Some (EPrint MsgInstallError))
        \/ (exists argv,
              fst (routine st) = Raise FileNotFoundError
              /\ spawned evs = pre ++ [(argv, NotFound)]
              /\ last evs = Some (ERun argv NotFound))
        \/ (exists argv,
              fst (routine st) = Raise OtherError
              /\ spawned evs = pre ++ [(argv, SpawnError)]
              /\ last evs = Some (ERun argv SpawnError))).
Proof.
  intros Hab Hret routine. subst routine. rewrite bind_print.
  set (st0 := emit (EPrint start) st).
  destruct (Hab st0) as (evs & Hout & Hres).
  pose proof (Hret st0) as Hval.
  unfold try_except.
  destruct (body st0) as [[b|e] st1]; cbn [fst snd] in *.
  - exists (EPrint start :: evs), (spawned evs). split; [|split; [exact Hres|]].
    + rewrite Hout. subst st0. cbn [emit output]. now rewrite <- app_assoc.
    + left. split; [|reflexivity]. now rewrite (Hval b eq_refl).
  - destruct Hres as (evs0 & argv & r & -> & Hok & Hf & ->).
    destruct r as [rc out| |]; cbn [exn_of_failure is_CalledProcessError].
    + rewrite bind_print. unfold mret, M_ret, ret. cbn [fst snd].
      exists (EPrint start :: evs0 ++ [ERun argv (Exited rc out)]
                ++ [EPrint MsgInstallError]), (spawned evs0).
      split; [|split; [exact Hok|]].
      * cbn [emit output]. rewrite Hout. subst st0. cbn [emit output].
        now rewrite <- !app_assoc.
      * right. left. exists argv, rc, out. repeat split.
        -- cbn in Hf. intros ->. discriminate.
        -- cbn [spawned]. rewrite !spawned_app. cbn. now rewrite ?app_nil_r.
        -- rewrite app_comm_cons, app_assoc. apply last_snoc.
    + cbn [fst snd].
      exists (EPrint start :: evs0 ++ [ERun argv NotFound]), (spawned evs0).
      split; [|split; [exact Hok|]].
      * rewrite Hout. subst st0. cbn [emit output]. now rewrite <- !app_assoc.
      * right. right. left. exists argv. repeat split.
        -- cbn [spawned]. rewrite spawned_app. reflexivity.
        -- rewrite app_comm_cons. apply last_snoc.
    + cbn [fst snd].
      exists (EPrint start :: evs0 ++ [ERun argv SpawnError]), (spawned evs0).
      split; [|split; [exact Hok|]].
      * rewrite Hout. subst st0. cbn [emit output]. now rewrite <- !app_assoc.
      * right. right. right. exists argv. repeat split.
        -- cbn [spawned]. rewrite spawned_app. reflexivity.
        -- rewrite app_comm_cons. apply last_snoc.
Qed.

Lemma debian_body_aborts :
  aborts_at_first_failure
    (subprocess_run ["sudo"; "apt"; "update"];;
     subprocess_run ["sudo"; "apt"; "install"; "-y"; "curl"; "gnupg"];;
     subprocess_run ["curl"; "-fsSL"; "https://deb.nodesource.com/setup_18.x"];;
     setup_script ← subprocess_run
                      ["curl"; "-fsSL"; "https://deb.nodesource.com/setup_18.x"];
     subprocess_run ["sudo"; "-E"; "bash"; "-c"; setup_script];;
     subprocess_run ["sudo"; "apt"; "install"; "-y"; "nodejs"];;
     print MsgInstallOk;;
     (mret true : M E bool)).
Proof.
  repeat first [ apply aborts_ret | apply aborts_print | apply aborts_run
               | apply aborts_bind; [|intros] ].
Qed.

Lemma redhat_body_aborts :
  aborts_at_first_failure
    (subprocess_run ["sudo"; "yum"; "install"; "-y"; "curl"];;
     setup_script ← subprocess_run
                      ["curl"; "-fsSL"; "https://rpm.nodesource.com/setup_18.x"];
     subprocess_run ["sudo"; "-E"; "bash"; "-c"; setup_script];;
     subprocess_run ["sudo"; "yum"; "install"; "-y"; "nodejs"];;
     print MsgInstallOk;;
     (mret true : M E bool)).
Proof.
  repeat first [ apply aborts_ret | apply aborts_print | apply aborts_run
               | apply aborts_bind; [|intros] ].
Qed.

End Chains.

(** X6.  The Debian routine and the RedHat routine stop at the first
    command that fails.  Every command spawned before the last one exited
    with 0.  The routine returns true when all of them did; it returns
    false, printing the failure line, when the last command exited with
    another return code; when the executable of the last command is
    missing, [FileNotFoundError] escapes the routine uncaught; and when
    the last command cannot be run for another reason, that exception
    escapes the routine uncaught as well. *)
Theorem family_routines_stop_at_first_failure (E : Env) (st : State E)
        (routine : M E bool) :
  routine = install_nodejs_debian_based \/ routine = install_nodejs_redhat_based ->
  exists evs pre,
    output (snd (routine st)) = output st ++ evs
    /\ Forall (fun run => failed (snd run) = false) pre
    /\ ((fst (routine st) = Ok true /\ spawned evs = pre)
        \/ (exists argv rc out,
              fst (routine st) = Ok false
              /\ rc <> 0%Z
              /\ spawned evs = pre ++ [(argv, Exited rc out)]
              /\ last evs = Some (EPrint MsgInstallError))
        \/ (exists argv,
              fst (routine st) = Raise FileNotFoundError
              /\ spawned evs = pre ++ [(argv, NotFound)]
              /\ last evs = Some (ERun argv NotFound))
        \/ (exists argv,
              fst (routine st) = Raise OtherError
              /\ spawned evs = pre ++ [(argv, SpawnError)]
              /\ last evs = Some (ERun argv SpawnError))).
Proof.
  intros [-> | ->].
  - apply (family_routine_outcome MsgDebianStart).
    + apply debian_body_aborts.
    + repeat (apply returns_only_bind; intros). now apply returns_only_ret.
  - apply (family_routine_outcome MsgRedhatStart).
    + apply redhat_body_aborts.
    + repeat (apply returns_only_bind; intros). now apply returns_only_ret.
Qed.

Lemma family_routines_stop_at_first_failure_witness :
  let E := Fake.env (Fake.only ["apt"]) None "Linux" 0 in
  let st : State E := @initial E 0%nat in
  exists evs pre,
    output (snd (install_nodejs_debian_based st)) = output st ++ evs
    /\ Forall (fun run => failed (snd run) = false) pre
    /\ ((fst (install_nodejs_debian_based st) = Ok true /\ spawned evs = pre)
        \/ (exists argv rc out,
              fst (install_nodejs_debian_based st) = Ok false
              /\ rc <> 0%Z
              /\ spawned evs = pre ++ [(argv, Exited rc out)]
              /\ last evs = Some (EPrint MsgInstallError))
        \/ (exists argv,
              fst (install_nodejs_debian_based st) = Raise FileNotFoundError
              /\ spawned evs = pre ++ [(argv, NotFound)]
              /\ last evs = Some (ERun argv NotFound))
        \/ (exists argv,
              fst (install_nodejs_debian_based st) = Raise OtherError
              /\ spawned evs = pre ++ [(argv, SpawnError)]
              /\ last evs = Some (ERun argv SpawnError))).
Proof.
  intros E st.
  apply (family_routines_stop_at_first_failure E st install_nodejs_debian_based).
  left. reflexivity.
Defined.

(** ** A reported success follows a successful install command *)

Section SuccessEnds.
Context {E : Env}.

Lemma ends_with_nodejs_install_later (st st1 st' : State E) evs :
  output st1 = output st ++ evs ->
  ends_with_nodejs_install st1 st' -> ends_with_nodejs_install st st'.
Proof.
  intros Hout (pre & argv & out & fin & H & Hhd & Hin & Hfin).
  exists (evs ++ pre), argv, out, fin. split; [|auto].
  now rewrite H, Hout, <- !app_assoc.
Qed.

Lemma bind_ok_inv {A B} (m : M E A) (k : A -> M E B) st b st' :
  (m ≫= k) st = (Ok b, st') ->
  exists a st1, m st = (Ok a, st1) /\ k a st1 = (Ok b, st').
Proof.
  unfold mbind, M_bind, bind.
  destruct (m st) as [[a|e] st1]; [eauto|discriminate].
Qed.

Lemma run_ok_inv argv (st st1 : State E) out :
  subprocess_run argv st = (Ok out, st1) ->
  output st1 = output st ++ [ERun argv (Exited 0 out)].
Proof.
  unfold subprocess_run. destruct (spawn E argv (world st)) as [r w].
  destruct r as [rc o| |]; [|discriminate|discriminate].
  destruct (rc =? 0)%Z eqn:Hrc; [|discriminate].
  apply Z.eqb_eq in Hrc. subst rc. now intros [= <- <-].
Qed.

(** A body under [except CalledProcessError] whose handler returns
    false: the routine returns true only when the body does. *)
Lemma family_try_true_inv (body : M E bool) (st st' : State E) :
  try_except body is_CalledProcessError
    (fun _ => print MsgInstallError;; mret false) st = (Ok true, st') ->
  body st = (Ok true, st').
Proof.
  unfold try_except. destruct (body st) as [[b|e] st1]; [now intros [= -> ->]|].
  destruct (is_CalledProcessError e); [|discriminate].
  rewrite bind_print. discriminate.
Qed.

(** One step of a body that returned: the command exited with 0. *)
Ltac step_ok H :=
  let a := fresh "out" in
  let s := fresh "s" in
  let Hr := fresh "Hrun" in
  apply bind_ok_inv in H as (a & s & Hr & H);
  apply run_ok_inv in Hr.

Lemma grows_trans (s0 s1 s2 : State E) evs1 evs2 :
  output s1 = output s0 ++ evs1 -> output s2 = output s1 ++ evs2 ->
  output s2 = output s0 ++ (evs1 ++ evs2).
Proof. intros H1 H2. now rewrite H2, H1, app_assoc. Qed.

(** The last of a row of successful steps, after the announcement. *)
Lemma ends_after_steps (st s s' : State E) start evs argv out fin :
  output s = output (emit (EPrint start) st) ++ evs ->
  output s' = output s ++ [ERun argv (Exited 0 out)] ->
  head argv = Some "sudo" -> In "nodejs" argv ->
  fin = MsgInstallOk \/ fin = MsgFallbackOk ->
  ends_with_nodejs_install st (emit (EPrint fin) s').
Proof.
  intros Hs Hs' Hhd Hin Hfin.
  exists (EPrint start :: evs), argv, out, fin. split; [|auto].
  cbn [emit output] in *. rewrite Hs', Hs, <- !app_assoc. reflexivity.
Qed.

Lemma debian_true_ends (st st' : State E) :
  install_nodejs_debian_based st = (Ok true, st') ->
  ends_with_nodejs_install st st'.
Proof.
  unfold install_nodejs_debian_based. rewrite bind_print. intros H.
  apply family_try_true_inv in H. cbv zeta in H.
  do 6 step_ok H.
  rewrite bind_print in H. injection H as <-.
  pose proof (grows_trans _ _ _ _ _ Hrun Hrun0) as G0.
  pose proof (grows_trans _ _ _ _ _ G0 Hrun1) as G1.
  pose proof (grows_trans _ _ _ _ _ G1 Hrun2) as G2.
  pose proof (grows_trans _ _ _ _ _ G2 Hrun3) as G3.
  apply (ends_after_steps st _ _ _ _ _ _ _ G3 Hrun4);
    [reflexivity|cbn [In]; auto 10|now left].
Qed.

Lemma redhat_true_ends (st st' : State E) :
  install_nodejs_redhat_based st = (Ok true, st') ->
  ends_with_nodejs_install st st'.
Proof.
  unfold install_nodejs_redhat_based. rewrite bind_print. intros H.
  apply family_try_true_inv in H. cbv zeta in H.
  do 4 step_ok H.
  rewrite bind_print in H. injection H as <-.
  pose proof (grows_trans _ _ _ _ _ Hrun Hrun0) as G0.
  pose proof (grows_trans _ _ _ _ _ G0 Hrun1) as G1.
  apply (ends_after_steps st _ _ _ _ _ _ _ G1 Hrun2);
    [reflexivity|cbn [In]; auto 10|now left].
Qed.

Lemma attempts_snoc cmds pre r :
  (length pre < length cmds)%nat ->
  exists c, In c cmds
    /\ attempts cmds (pre ++ [r])
       = attempts cmds pre ++ [ERun ("sudo" :: c) r].
Proof.
  revert pre. induction cmds as [|c cmds IH]; intros pre Hlen; [cbn in Hlen; lia|].
  destruct pre as [|p pre].
  - exists c. split; [now left|]. unfold attempts. cbn [map zip_with app].
    now rewrite zip_with_nil_r.
  - cbn in Hlen. destruct (IH pre ltac:(lia)) as (c' & Hin & Heq).
    exists c'. split; [now right|].
    unfold attempts in *. cbn [map zip_with app]. now rewrite Heq.
Qed.

Lemma fallback_true_ends (st st' : State E) :
  install_nodejs_fallback st = (Ok true, st') ->
  ends_with_nodejs_install st st'.
Proof.
  intros Hrun. unfold install_nodejs_fallback in Hrun. rewrite bind_print in Hrun.
  set (st0 := emit (EPrint MsgFallbackStart) st) in *.
  destruct (fallback_loop_spec package_managers st0)
    as (outcomes & tail & Hout & Hlen & Hres).
  unfold try_except in Hrun.
  destruct (fallback_loop package_managers st0) as [[b|e] st1] eqn:Hloop;
    cbn [fst snd] in *.
  - injection Hrun as -> <-.
    destruct Hres as [(_ & -> & pre & out & -> & _)|[(Hf & _)|(Hf & _)]];
      [|discriminate|discriminate].
    assert (Hlt : (length pre < length (@package_managers))%nat).
    { rewrite length_app in Hlen. cbn [length] in Hlen. lia. }
    destruct (attempts_snoc package_managers pre (Exited 0 out) Hlt)
      as (c & Hin & Heq).
    exists (EPrint MsgFallbackStart :: attempts package_managers pre),
           ("sudo" :: c), out, MsgFallbackOk.
    split; [|split; [reflexivity|split; [|now right]]].
    + rewrite Hout, Heq. subst st0. cbn [emit output].
      rewrite <- !app_assoc. reflexivity.
    + right. revert Hin. unfold package_managers. cbn [In].
      intros [<-|[<-|[<-|[<-|[<-|[]]]]]]; cbn; auto 10.
  - destruct (is_Exception e); [|discriminate].
    rewrite bind_print in Hrun. discriminate.
Qed.

Lemma install_nodejs_for_true_ends info (st st' : State E) :
  install_nodejs_for info st = (Ok true, st') ->
  ends_with_nodejs_install st st'.
Proof.
  assert (Hfb : forall msg (s s' : State E),
            (print msg;; install_nodejs_fallback) s = (Ok true, s') ->
            ends_with_nodejs_install s s').
  { intros msg s s' H. rewrite bind_print in H.
    apply fallback_true_ends in H.
    eapply ends_with_nodejs_install_later; [|exact H]. reflexivity. }
  assert (Hfam : forall (routine : M E bool) msg (s s' : State E),
            (forall t t', routine t = (Ok true, t') -> ends_with_nodejs_install t t') ->
            emits any_event routine ->
            (ok ← routine;
             if ok : bool then mret true
             else print msg;; install_nodejs_fallback) s = (Ok true, s') ->
            ends_with_nodejs_install s s').
  { intros routine msg s s' Htrue Hem H.
    unfold mbind at 1 in H. unfold M_bind at 1 in H. unfold bind at 1 in H.
    destruct (Hem s) as (evs & Hout & _).
    destruct (routine s) as [[[|]|e] s1] eqn:Hr; cbn [snd] in Hout.
    - injection H as <-. now apply Htrue.
    - apply Hfb in H. eapply ends_with_nodejs_install_later; eauto.
    - discriminate. }
  unfold install_nodejs_for.
  destruct info as [[distro_id distro_id_like]|]; [|apply Hfb].
  destruct (not_distro_id (Some (distro_id, distro_id_like))); [apply Hfb|].
  cbv zeta.
  destruct (is_debian_family distro_id distro_id_like).
  - apply Hfam; [apply debian_true_ends|].
    apply no_setup_any, install_nodejs_debian_based_no_setup.
  - destruct (is_redhat_family distro_id distro_id_like); [|apply Hfb].
    apply Hfam; [apply redhat_true_ends|].
    apply no_setup_any, install_nodejs_redhat_based_no_setup.
Qed.

End SuccessEnds.

(** X7.  [install_nodejs] never reports success on its own account:
    whenever it returns true, the last command it spawned ran behind
    [sudo], names the nodejs package, and exited with 0, and the only
    thing that follows it is the line that reports the success: the
    line of a family routine (78, 107) or that of the fallback (132). *)
Theorem reported_success_follows_successful_install (E : Env)
        (st st' : State E) :
  install_nodejs st = (Ok true, st') ->
  exists pre argv out fin,
    output st' = output st ++ pre ++ [ERun argv (Exited 0 out); EPrint fin]
    /\ head argv = Some "sudo"
    /\ In "nodejs" argv
    /\ (fin = MsgInstallOk \/ fin = MsgFallbackOk).
Proof.
  unfold install_nodejs. intros H.
  unfold mbind at 1 in H. unfold M_bind at 1 in H. unfold bind at 1 in H.
  destruct (detect_linux_distro_quiet st) as (evs & Hout & _).
  destruct (detect_linux_distro st) as [[info|e] st1]; [|discriminate].
  cbn [snd] in Hout. apply install_nodejs_for_true_ends in H.
  exact (ends_with_nodejs_install_later st st1 st' evs Hout H).
Qed.

Lemma reported_success_follows_successful_install_witness :
  let E := Fake.env (Fake.only ["dnf"])
                    (Some (String.concat nl ["ID=fedora"])) "Linux" 0 in
  let st : State E := @initial E 0%nat in
  let st' := snd (install_nodejs st) in
  install_nodejs st = (Ok true, st')
  /\ exists pre argv out fin,
       output st' = output st ++ pre ++ [ERun argv (Exited 0 out); EPrint fin]
       /\ head argv = Some "sudo"
       /\ In "nodejs" argv
       /\ (fin = MsgInstallOk \/ fin = MsgFallbackOk).
Proof.
  intros E st st'.
  assert (H : install_nodejs st = (Ok true, st')) by reflexivity.
  split; [exact H|].
  exact (reported_success_follows_successful_install E st st' H).
Defined.

(** ** How [main] can end *)

Section Raises.
Context {E : Env}.

Lemma raises_ret {A} P (a : A) : raises_only P (mret a : M E A).
Proof. intros st e. discriminate. Qed.

Lemma raises_print P msg : raises_only P (print msg : M E unit).
Proof. intros st e. discriminate. Qed.

Lemma raises_sys_exit {A} (P : Exn -> Prop) code :
  P (SystemExit code) -> raises_only P (sys_exit code : M E A).
Proof. intros HP st e [= <-]. exact HP. Qed.

Lemma raises_run argv : raises_only spawn_failure (subprocess_run argv : M E string).
Proof.
  intros st e. unfold subprocess_run, spawn_failure.
  destruct (spawn E argv (world st)) as [[rc out| |] w];
    [destruct (rc =? 0)%Z| |]; cbn; intros [= <-]; auto.
Qed.

Lemma raises_read (P : Exn -> Prop) path :
  P OSError -> raises_only P (read_file path : M E string).
Proof.
  intros HP st e. unfold read_file.
  destruct (open_read E path (world st)); cbn; intros [= <-]; assumption.
Qed.

Lemma raises_bind {A B} P (m : M E A) (k : A -> M E B) :
  raises_only P m -> (forall a, raises_only P (k a)) -> raises_only P (m ≫= k).
Proof.
  intros Hm Hk st e. unfold mbind, M_bind, bind.
  pose proof (Hm st) as Hm'.
  destruct (m st) as [[a|e'] st1]; cbn [fst] in *.
  - apply Hk.
  - intros [= <-]. now apply Hm'.
Qed.

Lemma raises_try {A} (Pb P : Exn -> Prop) (body : M E A) catches handler :
  raises_only Pb body ->
  (forall e, Pb e -> catches e = false -> P e) ->
  (forall e, raises_only P (handler e)) ->
  raises_only P (try_except body catches handler).
Proof.
  intros Hb Hun Hh st e. unfold try_except.
  pose proof (Hb st) as Hb'.
  destruct (body st) as [[a|e'] st1]; cbn [fst] in *; [discriminate|].
  destruct (catches e') eqn:Hc.
  - apply Hh.
  - intros [= <-]. apply Hun; [now apply Hb'|assumption].
Qed.

Lemma raises_weaken {A} (P Q : Exn -> Prop) (m : M E A) :
  (forall e, P e -> Q e) -> raises_only P m -> raises_only Q m.
Proof. intros HPQ Hm st e H. apply HPQ. eapply Hm; eauto. Qed.

Ltac raises_body :=
  repeat first
    [ apply raises_ret
    | apply raises_print
    | apply raises_run
    | apply raises_bind; [|intros]
    | progress cbv zeta ].

(** Only what line 23 does not name escapes the presence check. *)
Lemma check_node_installed_raises :
  raises_only unrunnable_command (@check_node_installed E).
Proof.
  unfold check_node_installed.
  apply (raises_try spawn_failure).
  - raises_body.
  - intros e [-> | [-> | ->]]; [discriminate|discriminate|reflexivity].
  - intros. raises_body.
Qed.

Lemma detect_linux_distro_raises_nothing :
  raises_only nothing (@detect_linux_distro E).
Proof.
  unfold detect_linux_distro.
  apply (raises_try (fun e => e = OSError)).
  - apply raises_bind; [now apply raises_read|intros]. raises_body.
  - intros e ->. discriminate.
  - intros. raises_body.
Qed.

Lemma fallback_loop_raises cmds :
  raises_only unrunnable_command (@fallback_loop E cmds).
Proof.
  induction cmds as [|c cmds IH]; cbn [fallback_loop].
  - raises_body.
  - apply raises_bind.
    + apply (raises_try spawn_failure).
      * raises_body.
      * intros e [-> | [-> | ->]]; [discriminate|discriminate|reflexivity].
      * intros. apply raises_ret.
    + intros [b|]; [apply raises_ret|exact IH].
Qed.

(** The outer handler of the fallback catches what the loop lets through. *)
Lemma install_nodejs_fallback_raises_nothing :
  raises_only nothing (@install_nodejs_fallback E).
Proof.
  unfold install_nodejs_fallback.
  apply raises_bind; [apply raises_print|intros _].
  apply (raises_try unrunnable_command).
  - apply fallback_loop_raises.
  - intros e ->. discriminate.
  - intros. raises_body.
Qed.

Lemma family_routine_raises start (body : M E bool) :
  raises_only spawn_failure body ->
  raises_only missing_or_unrunnable
    (print start;;
     try_except body is_CalledProcessError
       (fun _ => print MsgInstallError;; mret false)).
Proof.
  intros Hb. apply raises_bind; [apply raises_print|intros _].
  apply (raises_try spawn_failure).
  - exact Hb.
  - intros e [-> | [-> | ->]]; [discriminate|now left|now right].
  - intros. raises_body.
Qed.

Lemma install_nodejs_debian_based_raises :
  raises_only missing_or_unrunnable (@install_nodejs_debian_based E).
Proof. apply family_routine_raises. raises_body. Qed.

Lemma install_nodejs_redhat_based_raises :
  raises_only missing_or_unrunnable (@install_nodejs_redhat_based E).
Proof. apply family_routine_raises. raises_body. Qed.

Lemma install_nodejs_for_raises info :
  raises_only missing_or_unrunnable (@install_nodejs_for E info).
Proof.
  assert (Hfb : forall msg, raises_only missing_or_unrunnable
                  (print msg;; @install_nodejs_fallback E)).
  { intros. apply raises_bind; [apply raises_print|intros _].
    eapply raises_weaken; [|apply install_nodejs_fallback_raises_nothing].
    intros e []. }
  assert (Hk : forall (ok : bool) msg, raises_only missing_or_unrunnable
                 (if ok then mret true
                  else print msg;; @install_nodejs_fallback E)).
  { intros [|] ?; [apply raises_ret|apply Hfb]. }
  unfold install_nodejs_for.
  destruct info as [[distro_id distro_id_like]|]; [|apply Hfb].
  destruct (not_distro_id _); [apply Hfb|]. cbv zeta.
  destruct (is_debian_family _ _).
  - apply raises_bind; [apply install_nodejs_debian_based_raises|intros; apply Hk].
  - destruct (is_redhat_family _ _); [|apply Hfb].
    apply raises_bind; [apply install_nodejs_redhat_based_raises|intros; apply Hk].
Qed.

Lemma install_nodejs_raises :
  raises_only missing_or_unrunnable (@install_nodejs E).
Proof.
  unfold install_nodejs. apply raises_bind.
  - eapply raises_weaken; [|apply detect_linux_distro_raises_nothing].
    intros e [].
  - apply install_nodejs_for_raises.
Qed.

Lemma presence_and_install_raises :
  raises_only exit_1_or_uncaught (@presence_and_install E).
Proof.
  assert (Hc : raises_only exit_1_or_uncaught (@check_node_installed E)).
  { eapply raises_weaken; [|apply check_node_installed_raises].
    intros e ->. right. now right. }
  assert (Hi : raises_only exit_1_or_uncaught (@install_nodejs E)).
  { eapply raises_weaken; [|apply install_nodejs_raises].
    intros e H. now right. }
  unfold presence_and_install.
  apply raises_bind; [apply raises_print|intros _].
  apply raises_bind; [exact Hc|intros [|]]; [apply raises_print|].
  apply raises_bind; [apply raises_print|intros _].
  apply raises_bind; [exact Hi|intros [|]].
  - apply raises_bind; [exact Hc|intros [|]]; [apply raises_print|].
    apply raises_bind; [apply raises_print|intros _].
    apply raises_sys_exit. now left.
  - apply raises_bind; [apply raises_print|intros _].
    apply raises_sys_exit. now left.
Qed.

End Raises.

(** X8.  A run of [main] ends in one of two ways.  Either it reaches
    line 200 and calls [setup("http")], having called [setup] nowhere
    before; or it never calls [setup] and ends with exit status 1: by
    [sys.exit(1)], or by an exception of the command runner that no
    handler names, which is [FileNotFoundError] or another error, and
    never [CalledProcessError]. *)
Theorem main_exits_1_unless_it_reaches_setup (E : Env) (st : State E) :
  (exists st',
     main st = call_setup "http" st'
     /\ Forall no_setup (events_since st st'))
  \/ ((fst (main st) = Raise (SystemExit 1)
       \/ fst (main st) = Raise FileNotFoundError
       \/ fst (main st) = Raise OtherError)
      /\ exit_code (fst (main st)) = 1%Z
      /\ Forall no_setup (events_since st (snd (main st)))).
Proof.
  destruct (String.eqb (platform_system E (world st)) "Linux") eqn:Hsys.
  - apply String.eqb_eq in Hsys.
    pose proof (presence_and_install_raises (after_gate st)) as Hr.
    destruct (presence_and_install (after_gate st)) as [[[]|e] st'] eqn:Hrun.
    + left. exists st'. now apply main_reaches_setup.
    + right. destruct (main_raises_before_setup st st' e Hsys Hrun) as [Hmain Hq].
      rewrite Hmain. cbn [fst snd].
      destruct (Hr e eq_refl) as [-> | [-> | ->]]; auto.
  - right. rewrite main_gate, Hsys. cbn [fst snd]. repeat split; auto.
    rewrite (events_since_app st _ [EPrint MsgLinuxOnly]); [|reflexivity].
    repeat constructor.
Qed.

(** The three ways without [setup] on hosts that show them: another
    platform; a Debian host without the runtime where no other program is
    found; a [node] that is found but cannot be started. *)
Example main_ends_without_setup :
  fst (main (@initial (Fake.env Fake.all_fail None "Darwin" 0) 0%nat))
  = Raise (SystemExit 1)
  /\ fst (main (@initial
                  (Fake.env (fun _ argv =>
                               if String.eqb (Fake.tool argv) "node"
                               then Exited 1 EmptyString else NotFound)
                            (Some "ID=debian") "Linux" 0) 0%nat))
     = Raise FileNotFoundError
  /\ fst (main (@initial (Fake.env (Fake.unrunnable ["node"]) None "Linux" 0)
                         0%nat))
     = Raise OtherError.
Proof. vm_compute. repeat split. Qed.

(** ** What a run may do *)

Section Allowed.
Context {E : Env}.

Lemma emits_get_platform_system Q : emits Q (@get_platform_system E).
Proof. intros st. exists []. cbn. now rewrite app_nil_r. Qed.

Lemma emits_get_euid Q : emits Q (@get_euid E).
Proof. intros st. exists []. cbn. now rewrite app_nil_r. Qed.

Lemma allowed_manager manager args r :
  In manager ["apt"; "yum"; "dnf"; "zypper"; "pacman"] ->
  allowed_event (ERun ("sudo" :: manager :: args) r).
Proof. intros H. cbn. do 4 right. eauto. Qed.

Lemma allowed_bash script r :
  allowed_event (ERun ["sudo"; "-E"; "bash"; "-c"; script] r).
Proof. cbn. do 3 right. left. eauto. Qed.

Ltac allowed :=
  first
    [ exact I
    | reflexivity
    | apply allowed_bash
    | apply allowed_manager; cbn [In]; auto 10
    | left; reflexivity
    | right; left; reflexivity
    | right; right; left; reflexivity ].

Lemma fallback_loop_allowed cmds :
  Forall (fun c => exists manager args,
            c = manager :: args
            /\ In manager ["apt"; "yum"; "dnf"; "zypper"; "pacman"]) cmds ->
  emits allowed_event (@fallback_loop E cmds).
Proof.
  induction 1 as [|c cmds (manager & args & -> & Hin) _ IH]; cbn [fallback_loop].
  - emits_with allowed.
  - apply emits_bind.
    + apply emits_try; [|intros; apply emits_ret].
      apply emits_bind; [|intros; emits_with allowed].
      apply emits_run. intros r. now apply allowed_manager.
    + intros [b|]; [apply emits_ret|exact IH].
Qed.

Lemma install_nodejs_fallback_allowed :
  emits allowed_event (@install_nodejs_fallback E).
Proof.
  unfold install_nodejs_fallback.
  apply emits_bind; [apply emits_print; exact I|intros _].
  apply emits_try; [|intros; emits_with allowed].
  apply fallback_loop_allowed. unfold package_managers.
  repeat constructor; do 2 eexists; (split; [reflexivity|cbn [In]; auto 10]).
Qed.

Lemma install_nodejs_debian_based_allowed :
  emits allowed_event (@install_nodejs_debian_based E).
Proof. unfold install_nodejs_debian_based. emits_with allowed. Qed.

Lemma install_nodejs_redhat_based_allowed :
  emits allowed_event (@install_nodejs_redhat_based E).
Proof. unfold install_nodejs_redhat_based. emits_with allowed. Qed.

Lemma install_nodejs_allowed : emits allowed_event (@install_nodejs E).
Proof.
  unfold install_nodejs. apply emits_bind.
  - unfold detect_linux_distro. emits_with allowed.
  - intros info. unfold install_nodejs_for.
    destruct info as [[distro_id distro_id_like]|];
      repeat first
        [ apply install_nodejs_fallback_allowed
        | apply install_nodejs_debian_based_allowed
        | apply install_nodejs_redhat_based_allowed
        | apply emits_ret
        | apply emits_print; exact I
        | apply emits_bind; [|intros]
        | progress cbv zeta
        | match goal with |- emits _ (if ?b then _ else _) => destruct b end ].
Qed.

Lemma main_allowed : emits allowed_event (@main E).
Proof.
  assert (Hc : emits allowed_event (@check_node_installed E)).
  { unfold check_node_installed. emits_with allowed. }
  unfold main, main_pipeline.
  repeat first
    [ apply Hc
    | apply install_nodejs_allowed
    | apply emits_get_platform_system
    | apply emits_get_euid
    | apply emits_ret
    | apply emits_sys_exit
    | apply emits_print; exact I
    | apply emits_setup; reflexivity
    | apply emits_bind; [|intros]
    | apply emits_if ].
Qed.

End Allowed.

(** X9.  Whatever the host, a run of [main] touches its surroundings
    only in these ways: it prints; it opens /etc/os-release and no other
    file; it calls [setup] with http and nothing else; and the only
    commands it spawns are [node --version], [curl -fsSL] on one of the
    two vendor script addresses, and behind [sudo] either [-E bash -c]
    with a script or one of apt, yum, dnf, zypper, pacman. *)
Theorem main_spawns_only_allowed_commands (E : Env) (st : State E) :
  Forall allowed_event (events_since st (snd (main st))).
Proof.
  destruct (main_allowed st) as (evs & Hout & Hall).
  now rewrite (events_since_app st _ evs Hout).
Qed.

(** ** The routines a run enters *)

Section Entered.
Context {E : Env}.

(** A family routine announces itself and is quiet afterwards. *)
Lemma install_nodejs_debian_based_entered (st : State E) :
  exists evs,
    output (snd (install_nodejs_debian_based st))
    = output st ++ EPrint MsgDebianStart :: evs
    /\ Forall quiet evs.
Proof.
  unfold install_nodejs_debian_based. rewrite bind_print.
  match goal with
  | |- context [try_except ?b ?c ?h (emit ?ev st)] =>
      assert (Hq : emits quiet (try_except b c h))
        by emits_with ltac:(now split);
      destruct (Hq (emit ev st)) as (evs & Hout & Hall)
  end.
  exists evs. split; [|exact Hall].
  rewrite Hout. cbn [emit output]. now rewrite <- app_assoc.
Qed.

Lemma install_nodejs_redhat_based_entered (st : State E) :
  exists evs,
    output (snd (install_nodejs_redhat_based st))
    = output st ++ EPrint MsgRedhatStart :: evs
    /\ Forall quiet evs.
Proof.
  unfold install_nodejs_redhat_based. rewrite bind_print.
  match goal with
  | |- context [try_except ?b ?c ?h (emit ?ev st)] =>
      assert (Hq : emits quiet (try_except b c h))
        by emits_with ltac:(now split);
      destruct (Hq (emit ev st)) as (evs & Hout & Hall)
  end.
  exists evs. split; [|exact Hall].
  rewrite Hout. cbn [emit output]. now rewrite <- app_assoc.
Qed.

Lemma fallback_after_notice_entered msg (st : State E) :
  strategy_of_event (EPrint msg) = None ->
  strategies_started
    (events_since st (snd ((print msg;; install_nodejs_fallback) st)))
  = [Fallback].
Proof.
  intros Hmsg. unfold install_nodejs_fallback. rewrite !bind_print.
  destruct (fallback_body_quiet
              (emit (EPrint MsgFallbackStart) (emit (EPrint msg) st)))
    as (evs & Hout & Hq).
  rewrite (events_since_app st _ (EPrint msg :: EPrint MsgFallbackStart :: evs)).
  - cbn [strategies_started]. rewrite Hmsg. cbn [strategy_of_event].
    now rewrite (strategies_started_quiet _ Hq).
  - rewrite Hout. cbn [emit output]. now rewrite <- !app_assoc.
Qed.

(** A family routine followed by lines 156-165. *)
Lemma family_then_fallback_entered k (r : M E bool) start msg (st : State E) :
  strategy_of_event (EPrint start) = Some k ->
  strategy_of_event (EPrint msg) = None ->
  (forall s, exists evs,
      output (snd (r s)) = output s ++ EPrint start :: evs /\ Forall quiet evs) ->
  strategies_started
    (events_since st
       (snd ((ok ← r;
              if ok : bool then mret true
              else print msg;; install_nodejs_fallback) st)))
  = match fst (r st) with
    | Ok false => [k; Fallback]
    | _ => [k]
    end.
Proof.
  intros Hk Hmsg Hr. destruct (Hr st) as (evs & Hout & Hq).
  unfold mbind at 1. unfold M_bind at 1. unfold bind at 1.
  destruct (r st) as [[[|]|e] s1] eqn:Hrun; cbn [fst snd] in *.
  - unfold mret, M_ret, ret. cbn [snd].
    rewrite (events_since_app st _ _ Hout). cbn [strategies_started].
    rewrite Hk. now rewrite (strategies_started_quiet _ Hq).
  - pose proof (fallback_after_notice_entered msg s1 Hmsg) as Hfb.
    unfold events_since in *.
    set (final := snd ((print msg;; install_nodejs_fallback) s1)) in *.
    assert (Hgrow : exists evs2, output final = output s1 ++ evs2).
    { subst final.
      assert (Hem : emits any_event (print msg;; @install_nodejs_fallback E)).
      { apply emits_bind; [apply emits_print; exact I|intros _].
        apply no_setup_any, install_nodejs_fallback_no_setup. }
      destruct (Hem s1) as (evs2 & H2 & _). eauto. }
    destruct Hgrow as (evs2 & Hfinal).
    rewrite Hfinal, drop_app_length in Hfb.
    rewrite Hfinal, Hout, <- app_assoc, drop_app_length.
    cbn [app strategies_started]. rewrite Hk, strategies_started_app.
    now rewrite (strategies_started_quiet _ Hq), Hfb.
  - rewrite (events_since_app st _ _ Hout). cbn [strategies_started].
    rewrite Hk. now rewrite (strategies_started_quiet _ Hq).
Qed.

End Entered.

(** X10.  [install_nodejs] enters one routine or two, never more.  When
    the fallback is selected it is the only one.  When the Debian or the
    RedHat routine is selected, the fallback follows exactly when that
    routine returns false; when it returns true or lets an exception
    escape, nothing follows.  The Debian and the RedHat routine are never
    both entered, and no routine is entered twice. *)
Theorem routines_entered_by_install (E : Env) (st : State E)
        (info : option (string * string)) :
  strategies_started (events_since st (snd (install_nodejs_for info st)))
  = match selected info with
    | Fallback => [Fallback]
    | family =>
        match fst (routine family st) with
        | Ok false => [family; Fallback]
        | Ok true | Raise _ => [family]
        end
    end.
Proof.
  unfold install_nodejs_for, selected, not_distro_id.
  destruct info as [[distro_id distro_id_like]|];
    [|now apply fallback_after_notice_entered].
  destruct (String.eqb distro_id EmptyString);
    [now apply fallback_after_notice_entered|].
  cbv zeta. destruct (is_debian_family distro_id distro_id_like).
  - cbn [routine].
    rewrite (family_then_fallback_entered Debian _ MsgDebianStart);
      [|reflexivity|reflexivity|apply install_nodejs_debian_based_entered].
    now destruct (fst (install_nodejs_debian_based st)) as [[|]|].
  - destruct (is_redhat_family distro_id distro_id_like);
      [|now apply fallback_after_notice_entered].
    cbn [routine].
    rewrite (family_then_fallback_entered RedHat _ MsgRedhatStart);
      [|reflexivity|reflexivity|apply install_nodejs_redhat_based_entered].
    now destruct (fst (install_nodejs_redhat_based st)) as [[|]|].
Qed.

(** ** Presence is queried afresh *)

Section Queries.
Context {E : Env}.

Lemma presence_queries_app evs1 evs2 :
  presence_queries (evs1 ++ evs2)
  = (presence_queries evs1 + presence_queries evs2)%nat.
Proof.
  induction evs1 as [|ev evs1 IH]; [reflexivity|].
  cbn [app presence_queries]. rewrite IH. lia.
Qed.

Lemma presence_queries_none evs :
  Forall not_a_query evs -> presence_queries evs = 0%nat.
Proof.
  induction 1 as [|ev evs Hev _ IH]; [reflexivity|].
  cbn [presence_queries]. unfold not_a_query in Hev. now rewrite Hev, IH.
Qed.

Lemma sudo_is_not_a_query args r : not_a_query (ERun ("sudo" :: args) r).
Proof. unfold not_a_query. now destruct args as [|a [|b args]]. Qed.

Lemma fallback_loop_no_query cmds : emits not_a_query (@fallback_loop E cmds).
Proof.
  induction cmds as [|c cmds IH]; cbn [fallback_loop].
  - emits_with ltac:(reflexivity).
  - apply emits_bind.
    + apply emits_try; [|intros; apply emits_ret].
      apply emits_bind; [|intros; emits_with ltac:(reflexivity)].
      apply emits_run. intros r. apply sudo_is_not_a_query.
    + intros [b|]; [apply emits_ret|exact IH].
Qed.

Lemma install_nodejs_fallback_no_query :
  emits not_a_query (@install_nodejs_fallback E).
Proof.
  unfold install_nodejs_fallback.
  apply emits_bind; [apply emits_print; reflexivity|intros _].
  apply emits_try; [apply fallback_loop_no_query|].
  intros. emits_with ltac:(reflexivity).
Qed.

Lemma install_nodejs_debian_based_no_query :
  emits not_a_query (@install_nodejs_debian_based E).
Proof. unfold install_nodejs_debian_based. emits_with ltac:(reflexivity). Qed.

Lemma install_nodejs_redhat_based_no_query :
  emits not_a_query (@install_nodejs_redhat_based E).
Proof. unfold install_nodejs_redhat_based. emits_with ltac:(reflexivity). Qed.

Lemma install_nodejs_no_query : emits not_a_query (@install_nodejs E).
Proof.
  unfold install_nodejs. apply emits_bind.
  - unfold detect_linux_distro. emits_with ltac:(reflexivity).
  - intros info. unfold install_nodejs_for.
    destruct info as [[distro_id distro_id_like]|];
      repeat first
        [ apply install_nodejs_fallback_no_query
        | apply install_nodejs_debian_based_no_query
        | apply install_nodejs_redhat_based_no_query
        | apply emits_ret
        | apply emits_print; reflexivity
        | apply emits_bind; [|intros]
        | progress cbv zeta
        | match goal with |- emits _ (if ?b then _ else _) => destruct b end ].
Qed.

(** One check is one query, however it ends. *)
Lemma check_node_installed_one_query (st : State E) :
  exists evs,
    output (snd (check_node_installed st)) = output st ++ evs
    /\ presence_queries evs = 1%nat.
Proof.
  pose proof (check_node_installed_run E st) as H.
  destruct (spawn E ["node"; "--version"] (world st)) as [r w].
  cbv zeta in H. rewrite H.
  destruct r as [[|p|p] out| |]; eexists;
    (split; [cbn [snd emit output]; rewrite <- ?app_assoc; reflexivity
            |reflexivity]).
Qed.

Lemma presence_and_install_queries (st : State E) :
  exists evs,
    output (snd (presence_and_install st)) = output st ++ evs
    /\ presence_queries evs
       = match check_node_installed (emit (EPrint MsgChecking) st) with
         | (Ok false, st1) =>
             match fst (install_nodejs (emit (EPrint MsgStartInstall) st1)) with
             | Ok true => 2%nat
             | _ => 1%nat
             end
         | _ => 1%nat
         end.
Proof.
  unfold presence_and_install. rewrite bind_print.
  set (st0 := emit (EPrint MsgChecking) st).
  destruct (check_node_installed_one_query st0) as (evs1 & Ho1 & Hq1).
  unfold mbind at 1. unfold M_bind at 1. unfold bind at 1.
  destruct (check_node_installed st0) as [[[|]|e1] st1]; cbn [fst snd] in *.
  - exists (EPrint MsgChecking :: evs1 ++ [EPrint MsgReady]). split.
    + cbn [print snd emit output]. rewrite Ho1. subst st0. cbn [emit output].
      now rewrite <- !app_assoc.
    + cbn [presence_queries is_presence_query]. rewrite presence_queries_app, Hq1.
      reflexivity.
  - rewrite bind_print.
    set (st2 := emit (EPrint MsgStartInstall) st1).
    destruct (install_nodejs_no_query st2) as (evs2 & Ho2 & Hq2).
    apply presence_queries_none in Hq2.
    unfold mbind at 1. unfold M_bind at 1. unfold bind at 1.
    destruct (install_nodejs st2) as [[[|]|e] st3]; cbn [fst snd] in *.
    + destruct (check_node_installed_one_query st3) as (evs3 & Ho3 & Hq3).
      assert (Hfinal : exists tail,
                output (snd ((verified ← check_node_installed;
                              if verified : bool then print MsgConfigured
                              else print MsgVerifyFailed;; sys_exit 1) st3))
                = output (snd (check_node_installed st3)) ++ tail
                /\ presence_queries tail = 0%nat).
      { unfold mbind at 1. unfold M_bind at 1. unfold bind at 1.
        destruct (check_node_installed st3) as [[[|]|e3] st4]; cbn [snd].
        - exists [EPrint MsgConfigured]. auto.
        - exists [EPrint MsgVerifyFailed]. auto.
        - exists []. now rewrite app_nil_r. }
      destruct Hfinal as (tail & Htail & Hq4).
      exists (EPrint MsgChecking :: evs1 ++ EPrint MsgStartInstall :: evs2 ++ evs3
                ++ tail).
      split.
      * rewrite Htail, Ho3, Ho2. subst st2. cbn [emit output]. rewrite Ho1.
        subst st0. cbn [emit output]. rewrite <- !app_assoc. reflexivity.
      * cbn [presence_queries is_presence_query].
        rewrite presence_queries_app. cbn [presence_queries is_presence_query].
        rewrite !presence_queries_app, Hq1, Hq2, Hq3, Hq4. reflexivity.
    + exists (EPrint MsgChecking :: evs1 ++ EPrint MsgStartInstall :: evs2
                ++ [EPrint MsgInstallFailed]).
      split.
      * rewrite bind_print. unfold sys_exit, raise. cbn [snd emit output].
        rewrite Ho2. subst st2. cbn [emit output].
        rewrite Ho1. subst st0. cbn [emit output]. rewrite <- !app_assoc.
        reflexivity.
      * cbn [presence_queries is_presence_query].
        rewrite presence_queries_app. cbn [presence_queries is_presence_query].
        rewrite presence_queries_app, Hq1, Hq2. reflexivity.
    + exists (EPrint MsgChecking :: evs1 ++ EPrint MsgStartInstall :: evs2).
      split.
      * rewrite Ho2. subst st2. cbn [emit output].
        rewrite Ho1. subst st0. cbn [emit output]. rewrite <- !app_assoc.
        reflexivity.
      * cbn [presence_queries is_presence_query].
        rewrite presence_queries_app. cbn [presence_queries is_presence_query].
        rewrite Hq1, Hq2. reflexivity.
  - exists (EPrint MsgChecking :: evs1). split.
    + rewrite Ho1. subst st0. cbn [emit output]. now rewrite <- !app_assoc.
    + cbn [presence_queries is_presence_query]. now rewrite Hq1.
Qed.

End Queries.

(** X11.  The presence of the runtime is never remembered.  Off Linux
    [main] never asks.  On Linux it spawns [node --version] once, and a
    second time exactly when the first answer was negative and
    [install_nodejs] returned true; it never asks a third time. *)
Theorem presence_is_queried_once_or_twice (E : Env) (st : State E) :
  presence_queries (events_since st (snd (main st)))
  = if String.eqb (platform_system E (world st)) "Linux" then
      match check_node_installed (emit (EPrint MsgChecking) (after_gate st)) with
      | (Ok false, st1) =>
          match fst (install_nodejs (emit (EPrint MsgStartInstall) st1)) with
          | Ok true => 2%nat
          | Ok false | Raise _ => 1%nat
          end
      | (Ok true, _) | (Raise _, _) => 1%nat
      end
    else 0%nat.
Proof.
  rewrite main_gate.
  destruct (String.eqb (platform_system E (world st)) "Linux");
    [|now rewrite (events_since_app st _ [EPrint MsgLinuxOnly])].
  destruct (presence_and_install_queries (after_gate st)) as (evs & Hout & Hq).
  rewrite main_pipeline_split.
  assert (Hsetup : exists tail,
            output (snd ((presence_and_install;; call_setup "http") (after_gate st)))
            = output (snd (presence_and_install (after_gate st))) ++ tail
            /\ presence_queries tail = 0%nat).
  { unfold mbind, M_bind, bind.
    destruct (presence_and_install (after_gate st)) as [[[]|e] s1]; cbn [snd].
    - unfold call_setup. destruct (setup E "http" (world s1)) as [r w].
      exists [ESetup "http"]. auto.
    - exists []. now rewrite app_nil_r. }
  destruct Hsetup as (tail & Htail & Hq0).
  rewrite (events_since_app st _
             ((if (os_geteuid E (world st) =? 0)%Z then []
               else [EPrint MsgSudoAdvice]) ++ evs ++ tail)).
  - rewrite !presence_queries_app, Hq, Hq0.
    destruct (os_geteuid E (world st) =? 0)%Z; cbn [presence_queries is_presence_query];
      destruct (check_node_installed _) as [[[|]|] ?]; try lia;
      destruct (fst (install_nodejs _)) as [[|]|]; lia.
  - rewrite Htail, Hout, output_after_gate, <- !app_assoc. reflexivity.
Qed.

(** ** The RedHat routine *)

(** X12.  When every command succeeds, the RedHat routine spawns, in
    order: the install of curl with yum, one fetch of the RPM vendor
    script, [sudo -E bash -c] on the standard output of that fetch, and
    the install of nodejs with yum; it prints its two lines around them
    and returns true. *)
Theorem redhat_fetches_once_and_runs_it (E : Env) (st : State E)
        (out1 script out3 out4 : string) (w1 w2 w3 w4 : World E) :
  let fetch := ["curl"; "-fsSL"; "https://rpm.nodesource.com/setup_18.x"] in
  spawn E ["sudo"; "yum"; "install"; "-y"; "curl"] (world st)
  = (Exited 0 out1, w1) ->
  spawn E fetch w1 = (Exited 0 script, w2) ->
  spawn E ["sudo"; "-E"; "bash"; "-c"; script] w2 = (Exited 0 out3, w3) ->
  spawn E ["sudo"; "yum"; "install"; "-y"; "nodejs"] w3 = (Exited 0 out4, w4) ->
  install_nodejs_redhat_based st
  = (Ok true,
     {| world := w4;
        output :=
          output st
          ++ [EPrint MsgRedhatStart;
              ERun ["sudo"; "yum"; "install"; "-y"; "curl"] (Exited 0 out1);
              ERun fetch (Exited 0 script);
              ERun ["sudo"; "-E"; "bash"; "-c"; script] (Exited 0 out3);
              ERun ["sudo"; "yum"; "install"; "-y"; "nodejs"] (Exited 0 out4);
              EPrint MsgInstallOk] |}).
Proof.
  intros fetch H1 H2 H3 H4.
  unfold install_nodejs_redhat_based. rewrite bind_print.
  apply try_ok. cbv zeta.
  erewrite bind_ok; [|apply run_exit0; cbn [emit world]; exact H1].
  erewrite bind_ok; [|apply run_exit0; cbn [world]; exact H2].
  erewrite bind_ok; [|apply run_exit0; cbn [world]; exact H3].
  erewrite bind_ok; [|apply run_exit0; cbn [world]; exact H4].
  rewrite bind_print. unfold mret, M_ret, ret, emit. cbn [world output].
  rewrite <- !app_assoc. reflexivity.
Qed.

Lemma redhat_fetches_once_and_runs_it_witness :
  let E := Fake.env (Fake.installing ["yum"; "curl"; "bash"] "echo rpm repo")
                    None "Linux" 0 in
  let st : State E := @initial E 1%nat in
  let fetch := ["curl"; "-fsSL"; "https://rpm.nodesource.com/setup_18.x"] in
  (spawn E ["sudo"; "yum"; "install"; "-y"; "curl"] (world st)
   = (Exited 0 EmptyString, 2%nat)
   /\ spawn E fetch 2%nat = (Exited 0 "echo rpm repo", 3%nat)
   /\ spawn E ["sudo"; "-E"; "bash"; "-c"; "echo rpm repo"] 3%nat
      = (Exited 0 EmptyString, 4%nat)
   /\ spawn E ["sudo"; "yum"; "install"; "-y"; "nodejs"] 4%nat
      = (Exited 0 EmptyString, 5%nat))
  /\ install_nodejs_redhat_based st
     = (Ok true,
        Build_State E 5%nat
          (output st
           ++ [EPrint MsgRedhatStart;
               ERun ["sudo"; "yum"; "install"; "-y"; "curl"] (Exited 0 EmptyString);
               ERun fetch (Exited 0 "echo rpm repo");
               ERun ["sudo"; "-E"; "bash"; "-c"; "echo rpm repo"]
                    (Exited 0 EmptyString);
               ERun ["sudo"; "yum"; "install"; "-y"; "nodejs"]
                    (Exited 0 EmptyString);
               EPrint MsgInstallOk])).
Proof.
  intros E st fetch.
  split; [repeat split; reflexivity|].
  apply (redhat_fetches_once_and_runs_it E st
           EmptyString "echo rpm repo" EmptyString EmptyString
           2%nat 3%nat 4%nat 5%nat);
    reflexivity.
Defined.

(** ** [setup] follows a positive answer *)

Section SetupAfterAnswer.
Context {E : Env}.

Lemma check_true_inv (st st1 : State E) :
  check_node_installed st = (Ok true, st1) ->
  exists out,
    output st1
    = output st ++ [ERun ["node"; "--version"] (Exited 0 out);
                    EPrint (MsgNodeInstalled (PyStr.strip out))].
Proof.
  pose proof (check_node_installed_run E st) as H.
  destruct (spawn E ["node"; "--version"] (world st)) as [r w].
  cbv zeta in H. rewrite H.
  destruct r as [[|p|p] out| |]; intros [= <-].
  exists out. cbn [emit output]. now rewrite <- app_assoc.
Qed.

Lemma success_path_ends_with_answer (st st' : State E) :
  success_path st st' ->
  exists pre out fin,
    output st'
    = output st ++ pre ++ [ERun ["node"; "--version"] (Exited 0 out);
                           EPrint (MsgNodeInstalled (PyStr.strip out));
                           EPrint fin]
    /\ Forall no_setup pre.
Proof.
  intros [(st1 & Hc & ->)|(st1 & st2 & st3 & Hc1 & Hi & Hc3 & ->)].
  - apply check_true_inv in Hc as (out & Ho).
    exists [EPrint MsgChecking], out, MsgReady. split; [|repeat constructor].
    cbn [emit output] in *. rewrite Ho, <- !app_assoc. reflexivity.
  - apply check_true_inv in Hc3 as (out & Ho3).
    destruct (check_node_installed_quiet (emit (EPrint MsgChecking) st))
      as (evs1 & Ho1 & Hq1).
    rewrite Hc1 in Ho1. cbn [snd] in Ho1.
    destruct (install_nodejs_no_setup (emit (EPrint MsgStartInstall) st1))
      as (evs2 & Ho2 & Hq2).
    rewrite Hi in Ho2. cbn [snd] in Ho2.
    exists (EPrint MsgChecking :: evs1 ++ EPrint MsgStartInstall :: evs2),
           out, MsgConfigured.
    split.
    + cbn [emit output] in *. rewrite Ho3, Ho2, Ho1, <- !app_assoc.
      cbn [app]. rewrite <- !app_assoc. reflexivity.
    + constructor; [reflexivity|]. apply Forall_app. split.
      * eapply Forall_impl; [exact Hq1|]. apply quiet_no_setup.
      * constructor; [reflexivity|exact Hq2].
Qed.

End SetupAfterAnswer.

(** X13.  [main] calls [setup] only on the strength of a positive answer:
    in every run in which [setup] is called, the call is the last event
    and the only call of [setup], and it comes right after a
    [node --version] that exited with 0, the line that reports its
    version, and one closing status line. *)
Theorem setup_follows_a_positive_answer (E : Env) (st : State E) (mode : string) :
  In (ESetup mode) (events_since st (snd (main st))) ->
  exists pre out fin,
    events_since st (snd (main st))
    = pre ++ [ERun ["node"; "--version"] (Exited 0 out);
              EPrint (MsgNodeInstalled (PyStr.strip out));
              EPrint fin;
              ESetup "http"]
    /\ Forall no_setup pre.
Proof.
  intros Hin.
  assert (Hcontra : Forall no_setup (events_since st (snd (main st))) -> False).
  { intros Hall. rewrite Forall_forall in Hall.
    apply list_elem_of_In in Hin. specialize (Hall _ Hin). discriminate. }
  rewrite main_gate in *.
  destruct (String.eqb (platform_system E (world st)) "Linux") eqn:Hsys.
  - apply String.eqb_eq in Hsys.
    destruct (presence_and_install (after_gate st)) as [[[]|e] st'] eqn:Hrun.
    + pose proof Hrun as Hpath. apply presence_and_install_ok in Hpath.
      destruct (success_path_ends_with_answer _ _ Hpath)
        as (pre & out & fin & Ho & Hpre).
      rewrite main_pipeline_split, (bind_ok _ _ _ _ _ Hrun).
      unfold call_setup. destruct (setup E "http" (world st')) as [r w].
      cbn [snd].
      exists ((if (os_geteuid E (world st) =? 0)%Z then []
               else [EPrint MsgSudoAdvice]) ++ pre), out, fin.
      split.
      * apply events_since_app. cbn [output].
        rewrite Ho, output_after_gate, <- !app_assoc. reflexivity.
      * apply Forall_app. split; [|exact Hpre].
        destruct (os_geteuid E (world st) =? 0)%Z; repeat constructor.
    + exfalso. apply Hcontra.
      destruct (main_raises_before_setup st st' e Hsys Hrun) as [Hmain Hq].
      rewrite <- (main_on_linux st Hsys), Hmain. exact Hq.
  - exfalso. apply Hcontra. cbn [snd].
    rewrite (events_since_app st _ [EPrint MsgLinuxOnly]); [|reflexivity].
    repeat constructor.
Qed.

Lemma setup_follows_a_positive_answer_witness :
  let E := Fake.env (Fake.installing ["pacman"] EmptyString)
                    (Some (String.concat nl ["ID=arch"])) "Linux" 0 in
  let st : State E := @initial E 0%nat in
  In (ESetup "http") (events_since st (snd (main st)))
  /\ exists pre out fin,
       events_since st (snd (main st))
       = pre ++ [ERun ["node"; "--version"] (Exited 0 out);
                 EPrint (MsgNodeInstalled (PyStr.strip out));
                 EPrint fin;
                 ESetup "http"]
       /\ Forall no_setup pre.
Proof.
  intros E st.
  assert (H : In (ESetup "http") (events_since st (snd (main st)))).
  { vm_compute. auto 30. }
  split; [exact H|].
  exact (setup_follows_a_positive_answer E st "http" H).
Defined.

(** ** The Debian condition comes first *)

(** X14.  With a non-empty id, an ID_LIKE text that contains debian or
    ubuntu anywhere makes [install_nodejs] enter the Debian routine first,
    whatever the id is: also when the id is rhel, centos or fedora, where
    the RedHat condition holds as well. *)
Theorem debian_like_takes_precedence (E : Env) (st : State E)
        (distro_id distro_id_like : string) :
  distro_id <> EmptyString ->
  Substring "debian" distro_id_like \/ Substring "ubuntu" distro_id_like ->
  head (strategies_started
          (events_since st
             (snd (install_nodejs_for (Some (distro_id, distro_id_like)) st))))
  = Some Debian.
Proof.
  intros Hid Hlike.
  destruct (install_nodejs_for_first (Some (distro_id, distro_id_like)) st)
    as (evs & Hout & Hhd).
  rewrite (events_since_app _ _ _ Hout), Hhd. f_equal.
  unfold selected.
  destruct (String.eqb distro_id EmptyString) eqn:Hempty.
  - apply String.eqb_eq in Hempty. contradiction.
  - assert (Hd : is_debian_family distro_id distro_id_like = true).
    { apply is_debian_family_spec. tauto. }
    now rewrite Hd.
Qed.

Lemma debian_like_takes_precedence_witness :
  let E := Fake.env Fake.all_fail None "Linux" 0 in
  let st : State E := @initial E 0%nat in
  ("fedora" <> EmptyString
   /\ (Substring "debian" "rhel fedora debian"
       \/ Substring "ubuntu" "rhel fedora debian"))
  /\ is_redhat_family "fedora" "rhel fedora debian" = true
  /\ head (strategies_started
             (events_since st
                (snd (install_nodejs_for (Some ("fedora", "rhel fedora debian")) st))))
     = Some Debian.
Proof.
  intros E st.
  assert (H1 : "fedora" <> EmptyString) by discriminate.
  assert (H2 : Substring "debian" "rhel fedora debian"
               \/ Substring "ubuntu" "rhel fedora debian").
  { left. exists "rhel fedora ", EmptyString. reflexivity. }
  split; [auto|]. split; [reflexivity|].
  exact (debian_like_takes_precedence E st "fedora" "rhel fedora debian" H1 H2).
Defined.
